(** * Menu manager: the menu-tree normalizer and its request handlers

    A shallow embedding of
    - [app/routes/app.export-menu[.json].js] (the JSON export endpoint) and
    - [app/routes/app._index.jsx] (the page's [action]),
    and the properties the specification states about them.

    JavaScript values are embedded as a small untyped value universe
    ([JsVal]); an abrupt completion ([throw]) is an explicit result; the
    calls a handler makes on the Admin API client are recorded in a trace. *)

From Stdlib Require Import List String Ascii Bool Arith NArith ZArith Lia.
From Stdlib Require Import Floats.SpecFloat.
Import ListNotations.
Set Warnings "-register-all".
Local Open Scope string_scope.
Local Open Scope list_scope.

(** ** JavaScript values *)

Module Js.

(** A Number is an IEEE 754 double: [spec_float] is the Standard Library's
    datatype of such values (signed zeros, infinities, one NaN, finite). *)
Definition Number := spec_float.

(** The values the handlers exchange with [JSON.parse], [response.json()]
    and [Response.json]: JSON data plus [undefined].  A String is its
    sequence of UTF-16 code units; this development covers code units below
    256, one [ascii] each.  An Object is its list of own properties in
    insertion order (keys unique; a read finds the first). *)
Inductive JsVal : Type :=
| JUndefined
| JNull
| JBool (b : bool)
| JNum (n : Number)
| JStr (s : string)
| JArr (elems : list JsVal)
| JObj (props : list (string * JsVal)).

(** What a [throw] carries, as far as the handlers inspect it:
    [error instanceof Response] and [error.message]. *)
Record Thrown : Type := mkThrown {
  isResponse : bool;
  message : JsVal
}.

Inductive Completion (A : Type) : Type :=
| Normal (a : A)
| Throw (e : Thrown).
Arguments Normal {A} a.
Arguments Throw {A} e.

Definition bind {A B} (c : Completion A) (k : A -> Completion B) : Completion B :=
  match c with
  | Normal a => k a
  | Throw e => Throw e
  end.

Notation "x <- c ;; k" := (bind c (fun x => k))
  (at level 61, c at next level, right associativity).

(** The engine's own errors (V8's message texts). *)
Definition TypeError (msg : string) : Thrown :=
  {| isResponse := false; message := JStr msg |}.
Definition RangeError (msg : string) : Thrown :=
  {| isResponse := false; message := JStr msg |}.

Definition numOfNat (n : nat) : Number :=
  match N.of_nat n with
  | N0 => S754_zero false
  | Npos p => S754_finite false p 0
  end.

(** ToBoolean. *)
Definition truthy (v : JsVal) : bool :=
  match v with
  | JUndefined | JNull => false
  | JBool b => b
  | JNum (S754_zero _) | JNum S754_nan => false
  | JNum _ => true
  | JStr s => negb (s =? "")
  | JArr _ | JObj _ => true
  end.

Fixpoint lookup (k : string) (ps : list (string * JsVal)) : option JsVal :=
  match ps with
  | [] => None
  | (k', v) :: ps' => if k =? k' then Some v else lookup k ps'
  end.

(** [o.k] as a value, for the property names the handlers read: data
    properties of their own for an Object, [length] for an Array or a
    String, [undefined] otherwise (none of the names read is defined on a
    built-in prototype; the method [map] is [Array_map] below). *)
Definition prop (v : JsVal) (k : string) : JsVal :=
  match v with
  | JObj ps => match lookup k ps with Some x => x | None => JUndefined end
  | JArr l => if k =? "length" then JNum (numOfNat (List.length l)) else JUndefined
  | JStr s => if k =? "length" then JNum (numOfNat (String.length s)) else JUndefined
  | _ => JUndefined
  end.

Definition nullish (v : JsVal) : bool :=
  match v with
  | JUndefined | JNull => true
  | _ => false
  end.

Definition showNullish (v : JsVal) : string :=
  match v with
  | JNull => "null"
  | _ => "undefined"
  end.

(** [v.k]: reading a property of [null] or [undefined] throws. *)
Definition get (v : JsVal) (k : string) : Completion JsVal :=
  if nullish v
  then Throw (TypeError ("Cannot read properties of " ++ showNullish v
                           ++ " (reading '" ++ k ++ "')"))
  else Normal (prop v k).

(** [v?.k]. *)
Definition getOpt (v : JsVal) (k : string) : JsVal :=
  if nullish v then JUndefined else prop v k.

(** ["k" in o], for an Object. *)
Definition hasProp (v : JsVal) (k : string) : bool :=
  match v with
  | JObj ps => match lookup k ps with Some _ => true | None => false end
  | _ => false
  end.

(** [o.k = x] on an Object literal under construction: an existing
    property keeps its place, a new one goes last. *)
Fixpoint setProp (ps : list (string * JsVal)) (k : string) (x : JsVal)
  : list (string * JsVal) :=
  match ps with
  | [] => [(k, x)]
  | (k', v) :: ps' => if k =? k' then (k', x) :: ps' else (k', v) :: setProp ps' k x
  end.

(** [v === 0]. *)
Definition strictEqZero (v : JsVal) : bool :=
  match v with
  | JNum (S754_zero _) => true
  | _ => false
  end.

Definition positive (n : Number) : bool :=
  match n with
  | S754_infinity false | S754_finite false _ _ => true
  | _ => false
  end.

Fixpoint mapM {A B} (f : A -> Completion B) (l : list A) : Completion (list B) :=
  match l with
  | [] => Normal []
  | a :: l' => b <- f a ;; bs <- mapM f l' ;; Normal (b :: bs)
  end.

(** [v.map(f)] for a value [v] that is neither [null] nor [undefined]:
    [Array.prototype.map] on an Array; on anything else [v.map] is not
    callable. *)
Definition Array_map (name : string) (v : JsVal) (f : JsVal -> Completion JsVal)
  : Completion JsVal :=
  match v with
  | JArr l => out <- mapM f l ;; Normal (JArr out)
  | _ => Throw (TypeError (name ++ ".map is not a function"))
  end.

(** Nesting depth of a value. *)
Fixpoint depth (v : JsVal) : nat :=
  match v with
  | JArr l => S (list_max (map depth l))
  | JObj ps => S (list_max (map (fun p => depth (snd p)) ps))
  | _ => 0
  end.

End Js.
Import Js.

(** ** The menu-tree normalizer *)

Section Normalizer.

(** ECMAScript's ToNumber on a String, an Array or an Object
    (StringToNumber and ToPrimitive): part of the engine, not of the
    repository, and able to throw.  The normalizer reaches it only for a
    child [items] that is an Object with a non-numeric [length]. *)
Variable ToNumber_ext : JsVal -> Completion Number.

Definition ToNumber (v : JsVal) : Completion Number :=
  match v with
  | JUndefined => Normal S754_nan
  | JNull => Normal (S754_zero false)
  | JBool b => Normal (if b then numOfNat 1 else S754_zero false)
  | JNum n => Normal n
  | _ => ToNumber_ext v
  end.

(** [v > 0]. *)
Definition gtZero (v : JsVal) : Completion bool :=
  n <- ToNumber v ;; Normal (positive n).

(** The arrow function handed to [items.map], with the recursive call of
    [prepareMenuItemsForCreate] as [self]. *)
Definition mapCallback (self : JsVal -> Completion JsVal) (item : JsVal)
  : Completion JsVal :=
  title <- get item "title" ;;
  url <- get item "url" ;;
  type <- get item "type" ;;
  let newItem := [("title", title); ("url", url); ("type", type)] in
  resourceId <- get item "resourceId" ;;
  let newItem :=
    if truthy resourceId then setProp newItem "resourceId" resourceId
    else newItem in
  children <- get item "items" ;;
  nonEmpty <- (if truthy children then gtZero (prop children "length")
               else Normal false) ;;
  if nonEmpty
  then sub <- self children ;; Normal (JObj (setProp newItem "items" sub))
  else Normal (JObj newItem).

(** The body of [prepareMenuItemsForCreate].  Both route files carry this
    function, character for character. *)
Definition prepareBody (self : JsVal -> Completion JsVal) (items : JsVal)
  : Completion JsVal :=
  if negb (truthy items) || strictEqZero (prop items "length")
  then Normal (JArr [])
  else Array_map "items" items (mapCallback self).

(** The recursion, bounded by the call stack: frame [n] may nest [n] more
    calls. *)
Fixpoint prepareWithin (n : nat) (items : JsVal) : Completion JsVal :=
  match n with
  | O => Throw (RangeError "Maximum call stack size exceeded")
  | S n' => prepareBody (prepareWithin n') items
  end.

(** [prepareMenuItemsForCreate(items)]: the recursion follows the nesting
    of [items], so a stack as deep as the input never overflows
    ([prepareMenuItemsForCreate_eq] below is the function's own equation). *)
Definition prepareMenuItemsForCreate (items : JsVal) : Completion JsVal :=
  prepareWithin (S (depth items)) items.

End Normalizer.

(** ** Strings: the String methods and regular expressions the handlers use *)

Module Str.

(** WhiteSpace and LineTerminator code units below 256: TAB, LF, VT, FF,
    CR, SP and NBSP.  This is both what [trim] strips and what [\s]
    matches. *)
Definition isWhiteSpace (c : ascii) : bool :=
  let n := nat_of_ascii c in
  (((9 <=? n) && (n <=? 13)) || (n =? 32) || (n =? 160))%nat.

(** [\w]: [A-Za-z0-9_]. *)
Definition isWordChar (c : ascii) : bool :=
  let n := nat_of_ascii c in
  (((48 <=? n) && (n <=? 57)) || ((65 <=? n) && (n <=? 90))
   || ((97 <=? n) && (n <=? 122)) || (n =? 95))%nat.

(** Lower case of one code unit below 256: [A-Z], and the Latin-1 capitals
    U+00C0..U+00DE without the multiplication sign U+00D7. *)
Definition lowerChar (c : ascii) : ascii :=
  let n := nat_of_ascii c in
  if (((65 <=? n) && (n <=? 90))
      || ((192 <=? n) && (n <=? 222) && negb (n =? 215)))%nat
  then ascii_of_nat (n + 32) else c.

Fixpoint toLowerCase (s : string) : string :=
  match s with
  | EmptyString => EmptyString
  | String c r => String (lowerChar c) (toLowerCase r)
  end.

Fixpoint trimStart (s : string) : string :=
  match s with
  | EmptyString => EmptyString
  | String c r => if isWhiteSpace c then trimStart r else s
  end.

Fixpoint trimEnd (s : string) : string :=
  match s with
  | EmptyString => EmptyString
  | String c r =>
      match trimEnd r with
      | EmptyString => if isWhiteSpace c then EmptyString else String c EmptyString
      | r' => String c r'
      end
  end.

Definition trim (s : string) : string := trimEnd (trimStart s).

(** [s.replace(/\s+/g, "-")], scanning left to right; [inRun] says that
    the previous code unit belonged to the match being replaced. *)
Fixpoint replaceWhiteSpaceRunsFrom (inRun : bool) (s : string) : string :=
  match s with
  | EmptyString => EmptyString
  | String c r =>
      if isWhiteSpace c
      then if inRun then replaceWhiteSpaceRunsFrom true r
           else String "-" (replaceWhiteSpaceRunsFrom true r)
      else String c (replaceWhiteSpaceRunsFrom false r)
  end.

Definition replaceWhiteSpaceRuns (s : string) : string :=
  replaceWhiteSpaceRunsFrom false s.

(** [s.replace(/[^\w-]+/g, "")]: every code unit outside [\w] and ["-"]
    goes. *)
Fixpoint removeNonWordHyphen (s : string) : string :=
  match s with
  | EmptyString => EmptyString
  | String c r =>
      if isWordChar c || Ascii.eqb c "-"
      then String c (removeNonWordHyphen r)
      else removeNonWordHyphen r
  end.

(** The double quote, for template literals that print one. *)
Definition quote : string := String "034" EmptyString.

End Str.

(** ** The host: forms, files, the Admin API client *)

Module Host.

(** An uploaded [File]: what the import flow reads of it. *)
Record File : Type := mkFile {
  size : N;
  text : string
}.

Inductive FormDataEntryValue : Type :=
| FString (s : string)
| FFile (f : File).

(** [FormData]: the submitted entries in order; [get] returns the first
    entry of that name, [None] standing for [null]. *)
Definition FormData := list (string * FormDataEntryValue).

Fixpoint FormData_get (formData : FormData) (name : string)
  : option FormDataEntryValue :=
  match formData with
  | [] => None
  | (n, v) :: rest => if name =? n then Some v else FormData_get rest name
  end.

Definition entryToString (v : FormDataEntryValue) : string :=
  match v with
  | FString s => s
  | FFile _ => "[object File]"
  end.

(** One call of [admin.graphql]: the query constant and its variables. *)
Inductive GraphQLCall : Type :=
| GET_MENU_DETAILS_QUERY (id : string)
| GET_MENU_DETAILS_QUERY_ACTION (id : FormDataEntryValue)
| CREATE_MENU_MUTATION (title handle : string) (items : JsVal).

(** The Admin API client: [admin.graphql(query, {variables})] followed by
    [response.json()], as a function of the calls made before and of this
    call; it yields the decoded reply or throws. *)
Record AdminClient : Type := mkAdmin {
  graphql : list GraphQLCall -> GraphQLCall -> Completion JsVal
}.

(** What one request meets outside the repository's code. *)
Record Env : Type := mkEnv {
  (** [(await authenticate.admin(request)).admin], [None] when there is no
      admin object or it has no [graphql] function *)
  authenticate_admin : Completion (option AdminClient);
  (** [Math.random().toString(36)] *)
  Math_random_toString36 : string
}.

Record Request : Type := mkRequest {
  (** [new URL(request.url).searchParams.get("menuId")] *)
  searchParams_menuId : option string;
  (** the decoded form, by [unstable_parseMultipartFormData] or by
      [request.formData()] according to the Content-Type *)
  formData : Completion FormData
}.

Record Response : Type := mkResponse {
  status : N;
  body : JsVal
}.

(** [Response.json(data)] and Remix's [json(data, {status})]. *)
Definition Response_json (data : JsVal) : Response :=
  {| status := 200; body := data |}.
Definition json (data : JsVal) (st : N) : Response :=
  {| status := st; body := data |}.

(** An [async] handler: it extends the trace of Admin API calls and
    completes normally or abruptly. *)
Definition Handler (A : Type) : Type :=
  list GraphQLCall -> Completion A * list GraphQLCall.

Definition ret {A} (a : A) : Handler A := fun tr => (Normal a, tr).

Definition lift {A} (c : Completion A) : Handler A := fun tr => (c, tr).

Definition hbind {A B} (m : Handler A) (k : A -> Handler B) : Handler B :=
  fun tr =>
    match m tr with
    | (Normal a, tr') => k a tr'
    | (Throw e, tr') => (Throw e, tr')
    end.

(** [try { body } catch (error) { handler }] *)
Definition tryCatch {A} (body : Handler A) (handler : Thrown -> Handler A)
  : Handler A :=
  fun tr =>
    match body tr with
    | (Normal a, tr') => (Normal a, tr')
    | (Throw e, tr') => handler e tr'
    end.

(** [await admin.graphql(...)] and [await response.json()]. *)
Definition call (admin : AdminClient) (c : GraphQLCall) : Handler JsVal :=
  fun tr => (graphql admin tr c, tr ++ [c]).

Definition run {A} (m : Handler A) : Completion A * list GraphQLCall := m [].

End Host.
Import Host.

Notation "'await' x <- c ;; k" := (hbind c (fun x => k))
  (at level 61, x name, c at next level, right associativity).

(** ** The request handlers *)

(** [a || b] on values. *)
Definition orElse (a b : JsVal) : JsVal := if truthy a then a else b.

(** [Array.isArray(v)]. *)
Definition Array_isArray (v : JsVal) : bool :=
  match v with
  | JArr _ => true
  | _ => false
  end.

(** Truthiness of [formData.get(...)] and of an optional string. *)
Definition truthyEntry (v : option FormDataEntryValue) : bool :=
  match v with
  | None => false
  | Some (FString s) => negb (s =? "")
  | Some (FFile _) => true
  end.

Definition truthyString (v : option string) : bool :=
  match v with
  | None => false
  | Some s => negb (s =? "")
  end.

(** [v === s] for a form entry and a string literal. *)
Definition entryIs (v : option FormDataEntryValue) (s : string) : bool :=
  match v with
  | Some (FString t) => t =? s
  | _ => false
  end.

(** [typeof v === 'string'] and [v.size === 0] on a form entry. *)
Definition isStringEntry (v : option FormDataEntryValue) : bool :=
  match v with
  | Some (FString _) => true
  | _ => false
  end.

Definition sizeIsZero (v : option FormDataEntryValue) : bool :=
  match v with
  | Some (FFile f) => N.eqb (size f) 0
  | _ => false
  end.

(** An error record [{ field: [tag], message }] and one without [field]. *)
Definition fieldError (tag message : string) : JsVal :=
  JObj [("field", JArr [JStr tag]); ("message", JStr message)].

Definition messageError (message : JsVal) : JsVal :=
  JObj [("message", message)].

(** *** app/routes/app.export-menu[.json].js *)

Module ExportMenu.
Section Route.

Variable ToNumber_ext : JsVal -> Completion Number.

(** [loader({ request })].  The first [try] ends either in an early
    [return] (left) or with the admin client (right). *)
Definition loader (env : Env) (request : Request) : Handler Response :=
  await auth <-
    tryCatch
      (await admin <- lift (authenticate_admin env) ;;
       match admin with
       | None =>
           ret (inl (json (JObj [("error", JStr "Admin context error");
                                 ("details", JStr "Admin object or graphql method is missing.")])
                          500))
       | Some admin => ret (inr admin)
       end)
      (fun error =>
         if isResponse error then lift (Throw error)
         else ret (inl (json (JObj [("error", JStr "Auth error");
                                    ("details", message error)])
                             500))) ;;
  match auth with
  | inl response => ret response
  | inr admin =>
      let menuId := searchParams_menuId request in
      if negb (truthyString menuId)
      then ret (json (JObj [("error", JStr "Missing menuId parameter")]) 400)
      else
        match menuId with
        | None => ret (json (JObj [("error", JStr "Missing menuId parameter")]) 400)
        | Some menuId =>
            tryCatch
              (await responseJson <- call admin (GET_MENU_DETAILS_QUERY menuId) ;;
               await errors <- lift (get responseJson "errors") ;;
               if truthy errors
                  || negb (truthy (getOpt (prop responseJson "data") "menu"))
               then
                 ret (json (JObj [("error", JStr "Failed to fetch menu details");
                                  ("details", orElse errors (JStr "No menu data found."))])
                           500)
               else
                 let menuData := prop (prop responseJson "data") "menu" in
                 await items <-
                   lift (prepareMenuItemsForCreate ToNumber_ext (prop menuData "items")) ;;
                 let exportPayload :=
                   JObj [("originalHandle", prop menuData "handle");
                         ("originalTitle", prop menuData "title");
                         ("items", items)] in
                 ret (json exportPayload 200))
              (fun error =>
                 if isResponse error then lift (Throw error)
                 else
                   ret (json (JObj [("error", JStr "Unexpected error during export data preparation");
                                    ("details", message error)])
                             500))
        end
  end.

End Route.
End ExportMenu.

(** *** app/routes/app._index.jsx *)

Module Index.
Section Route.

Variable ToNumber_ext : JsVal -> Completion Number.

(** [JSON.parse(text)]: the decoded value, or a SyntaxError thrown. *)
Variable JSON_parse : string -> Completion JsVal.

Definition validationFailed (actionName message : string) : Response :=
  Response_json
    (JObj [("actionName", JStr actionName); ("success", JBool false);
           ("errors", JArr [fieldError "form" message])]).

Definition failed (actionName : string) (errors : JsVal) : Response :=
  Response_json
    (JObj [("actionName", JStr actionName); ("success", JBool false);
           ("errors", errors)]).

(** The branch [actionType === "duplicateMenu"] of [action]. *)
Definition duplicateMenu (env : Env) (admin : AdminClient) (formData : FormData)
  : Handler Response :=
  let originalMenuId := FormData_get formData "originalMenuId" in
  let newMenuTitle :=
    option_map (fun v => Str.trim (entryToString v))
               (FormData_get formData "newMenuTitle") in
  let invalid :=
    validationFailed "duplicateMenu" "Original menu and new title are required." in
  if negb (truthyEntry originalMenuId) || negb (truthyString newMenuTitle)
  then ret invalid
  else
    match originalMenuId, newMenuTitle with
    | Some originalMenuId, Some newMenuTitle =>
        tryCatch
          (await menuDetailsJson <-
             call admin (GET_MENU_DETAILS_QUERY_ACTION originalMenuId) ;;
           await errors <- lift (get menuDetailsJson "errors") ;;
           if truthy errors
              || negb (truthy (getOpt (prop menuDetailsJson "data") "menu"))
           then
             ret (failed "duplicateMenu"
                    (orElse errors
                       (JArr [messageError (JStr "Failed to fetch original menu details.")])))
           else
             let originalMenuData := prop (prop menuDetailsJson "data") "menu" in
             await preparedItems <-
               lift (prepareMenuItemsForCreate ToNumber_ext
                       (prop originalMenuData "items")) ;;
             let newMenuHandle :=
               (Str.removeNonWordHyphen
                  (Str.replaceWhiteSpaceRuns (Str.toLowerCase newMenuTitle))
                ++ "-" ++ substring 2 6 (Math_random_toString36 env))%string in
             await createResponseJson <-
               call admin (CREATE_MENU_MUTATION newMenuTitle newMenuHandle preparedItems) ;;
             await data <- lift (get createResponseJson "data") ;;
             if truthy (getOpt (getOpt (getOpt data "menuCreate") "userErrors") "length")
             then
               ret (failed "duplicateMenu"
                      (prop (prop data "menuCreate") "userErrors"))
             else
               let createErrors := prop createResponseJson "errors" in
               if truthy createErrors
                  || negb (truthy (getOpt (getOpt data "menuCreate") "menu"))
               then
                 ret (failed "duplicateMenu"
                        (orElse createErrors
                           (JArr [messageError (JStr "Failed to create new menu.")])))
               else
                 ret (Response_json
                        (JObj [("actionName", JStr "duplicateMenu");
                               ("success", JBool true);
                               ("createdMenu", prop (prop data "menuCreate") "menu");
                               ("message",
                                JStr ("Menu " ++ Str.quote ++ newMenuTitle ++ Str.quote
                                      ++ " duplicated successfully! New handle: "
                                      ++ newMenuHandle))])))
          (fun error =>
             ret (failed "duplicateMenu"
                    (JArr [messageError
                             (orElse (message error)
                                     (JStr "An unexpected error occurred."))])))
    | _, _ => ret invalid
    end.

(** The branch [actionType === "importMenu"] of [action].  The inner [try]
    around [JSON.parse] ends in an early [return] (left) or with the parsed
    document (right). *)
Definition importMenu (env : Env) (admin : AdminClient) (formData : FormData)
  : Handler Response :=
  let newMenuTitle :=
    option_map (fun v => Str.trim (entryToString v))
               (FormData_get formData "newImportMenuTitle") in
  let uploadedFile := FormData_get formData "menuFile" in
  let invalid :=
    validationFailed "importMenu" "New menu title and a valid JSON file are required." in
  if negb (truthyString newMenuTitle) || negb (truthyEntry uploadedFile)
     || isStringEntry uploadedFile || sizeIsZero uploadedFile
  then ret invalid
  else
    match newMenuTitle, uploadedFile with
    | Some newMenuTitle, Some (FFile uploadedFile) =>
        tryCatch
          (let fileContent := text uploadedFile in
           await parsed <-
             tryCatch
               (await importedData <- lift (JSON_parse fileContent) ;;
                ret (inr importedData))
               (fun e =>
                  ret (inl (failed "importMenu"
                              (JArr [fieldError "file" "Invalid JSON file."])))) ;;
           match parsed with
           | inl response => ret response
           | inr importedData =>
               await itemsToImport <- lift (get importedData "items") ;;
               if negb (Array_isArray itemsToImport)
               then
                 ret (failed "importMenu"
                        (JArr [fieldError "file" "Invalid JSON: 'items' array not found."]))
               else
                 await preparedImportedItems <-
                   lift (prepareMenuItemsForCreate ToNumber_ext itemsToImport) ;;
                 let newMenuHandle :=
                   (Str.removeNonWordHyphen
                      (Str.replaceWhiteSpaceRuns (Str.toLowerCase newMenuTitle))
                    ++ "-" ++ substring 2 6 (Math_random_toString36 env))%string in
                 await createResponseJson <-
                   call admin
                     (CREATE_MENU_MUTATION newMenuTitle newMenuHandle
                        preparedImportedItems) ;;
                 await data <- lift (get createResponseJson "data") ;;
                 if truthy (getOpt (getOpt (getOpt data "menuCreate") "userErrors") "length")
                 then
                   ret (failed "importMenu"
                          (prop (prop data "menuCreate") "userErrors"))
                 else
                   let createErrors := prop createResponseJson "errors" in
                   if truthy createErrors
                      || negb (truthy (getOpt (getOpt data "menuCreate") "menu"))
                   then
                     ret (failed "importMenu"
                            (orElse createErrors
                               (JArr [messageError
                                        (JStr "Failed to create menu from import.")])))
                   else
                     ret (Response_json
                            (JObj [("actionName", JStr "importMenu");
                                   ("success", JBool true);
                                   ("createdMenu", prop (prop data "menuCreate") "menu");
                                   ("message",
                                    JStr ("Menu " ++ Str.quote ++ newMenuTitle ++ Str.quote
                                          ++ " imported successfully!"))]))
           end)
          (fun error =>
             ret (failed "importMenu"
                    (JArr [messageError
                             (orElse (message error)
                                     (JStr "An unexpected error occurred during import."))])))
    | _, _ => ret invalid
    end.

(** [action({ request })].  Nothing here catches what [authenticate.admin]
    or the form decoder throws. *)
Definition action (env : Env) (request : Request) : Handler Response :=
  await admin <- lift (authenticate_admin env) ;;
  match admin with
  | None =>
      ret (Response_json
             (JObj [("success", JBool false);
                    ("errors",
                     JArr [messageError (JStr "Admin context not available for action.")])]))
  | Some admin =>
      await formData <- lift (formData request) ;;
      let actionType := FormData_get formData "_action" in
      if entryIs actionType "duplicateMenu" then duplicateMenu env admin formData
      else if entryIs actionType "importMenu" then importMenu env admin formData
      else
        ret (Response_json
               (JObj [("success", JBool false);
                      ("errors", JArr [messageError (JStr "Invalid action.")])]))
  end.

End Route.
End Index.

(** ** Vocabulary of the normalizer's properties *)

(** The fields a sanitized item may carry. *)
Definition allowedFields : list string :=
  ["title"; "url"; "type"; "resourceId"; "items"].

(** The record the callback builds before it looks at the children. *)
Definition baseFields (item : JsVal) : list (string * JsVal) :=
  [("title", prop item "title"); ("url", prop item "url");
   ("type", prop item "type")].

Definition withResourceId (item : JsVal) : list (string * JsVal) :=
  if truthy (prop item "resourceId")
  then baseFields item ++ [("resourceId", prop item "resourceId")]
  else baseFields item.

Definition elements (v : JsVal) : list JsVal :=
  match v with
  | JArr l => l
  | _ => []
  end.

(** An item sequence as the handlers pass it: absent (any falsy value), or
    an Array of items none of which is [null] or [undefined] and whose
    [items] is again such a sequence. *)
Inductive MenuItems : JsVal -> Prop :=
| MenuItems_absent v :
    truthy v = false -> MenuItems v
| MenuItems_array l :
    (forall item, In item l -> nullish item = false) ->
    (forall item, In item l -> MenuItems (prop item "items")) ->
    MenuItems (JArr l).

(** [SanitizedCopy items out]: [out] is an Array with one record per
    element of [items], in the same positions; each record has only allowed
    fields and the element's [title], [url] and [type]; and wherever a
    record has [items], these are again such a copy of the element's. *)
Inductive SanitizedCopy : JsVal -> JsVal -> Prop :=
| SanitizedCopy_array items outs :
    List.length outs = List.length (elements items) ->
    (forall i o, nth_error outs i = Some o ->
       exists item ps,
         nth_error (elements items) i = Some item /\ o = JObj ps /\
         incl (map fst ps) allowedFields /\
         prop o "title" = prop item "title" /\
         prop o "url" = prop item "url" /\
         prop o "type" = prop item "type") ->
    (forall i o item,
       nth_error outs i = Some o -> nth_error (elements items) i = Some item ->
       hasProp o "items" = true ->
       SanitizedCopy (prop item "items") (prop o "items")) ->
    SanitizedCopy items (JArr outs).

(** ** Vocabulary of the handlers' properties *)

(** The slug as the specification words it, in one pass over the title:
    each code unit is lowercased; a run of whitespace becomes one hyphen;
    of the rest, only word characters and hyphens stay. *)
Fixpoint slugFrom (inRun : bool) (title : string) : string :=
  match title with
  | EmptyString => EmptyString
  | String c r =>
      let c' := Str.lowerChar c in
      if Str.isWhiteSpace c'
      then if inRun then slugFrom true r else String "-" (slugFrom true r)
      else if Str.isWordChar c' || Ascii.eqb c' "-"
           then String c' (slugFrom false r)
           else slugFrom false r
  end.

Definition slug (title : string) : string := slugFrom false title.

(** The [field] tags of the error records of a response. *)
Definition errorFieldTags (r : Response) : list JsVal :=
  map (fun e => prop e "field") (elements (prop (body r) "errors")).

(** The request with one more entry put in front of its form. *)
Definition withEntry (name : string) (v : FormDataEntryValue) (request : Request)
  : Request :=
  {| searchParams_menuId := searchParams_menuId request;
     formData := fd <- formData request ;; Normal ((name, v) :: fd) |}.

(** The title a flow works with: [formData.get(name)?.toString().trim()]. *)
Definition submittedTitle (fd : FormData) (name : string) : option string :=
  option_map (fun v => Str.trim (entryToString v)) (FormData_get fd name).

(** The title field of each flow, with the flow's action name and the
    message of its validation error. *)
Definition titleFields : list (string * (string * string)) :=
  [("newMenuTitle",
    ("duplicateMenu", "Original menu and new title are required."));
   ("newImportMenuTitle",
    ("importMenu", "New menu title and a valid JSON file are required."))].

(** The required fields of the duplicate form that a submission lacks. *)
Definition missingDuplicateFields (fd : FormData) : list string :=
  (if truthyEntry (FormData_get fd "originalMenuId") then [] else ["originalMenuId"])
  ++ (if truthyString (submittedTitle fd "newMenuTitle") then [] else ["newMenuTitle"]).

(** The wording "the field tag identifies the offending form field", read
    as weakly as it can be: from the tags of the returned error records one
    can tell which single required field was missing. *)
Definition fieldTagIdentifiesMissingField : Prop :=
  exists identify : list JsVal -> string,
    forall ToNumber_ext JSON_parse env request admin fd name r tr,
      authenticate_admin env = Normal (Some admin) ->
      formData request = Normal fd ->
      entryIs (FormData_get fd "_action") "duplicateMenu" = true ->
      missingDuplicateFields fd = [name] ->
      run (Index.action ToNumber_ext JSON_parse env request) = (Normal r, tr) ->
      identify (errorFieldTags r) = name.


(** ** A sample host, for closed examples *)

Module Sample.

(** Stands in for the engine's ToNumber on Strings and Objects; no example
    below reaches it. *)
Definition ToNumber_ext (v : JsVal) : Completion Number := Normal S754_nan.

Definition SyntaxError (msg : string) : Thrown :=
  {| isResponse := false; message := JStr msg |}.

(** The text [{"items":[{"title":"Home","url":"/","type":"HTTP"}]}]. *)
Definition menuText : string :=
  ("{" ++ Str.quote ++ "items" ++ Str.quote ++ ":[{"
   ++ Str.quote ++ "title" ++ Str.quote ++ ":" ++ Str.quote ++ "Home" ++ Str.quote ++ ","
   ++ Str.quote ++ "url" ++ Str.quote ++ ":" ++ Str.quote ++ "/" ++ Str.quote ++ ","
   ++ Str.quote ++ "type" ++ Str.quote ++ ":" ++ Str.quote ++ "HTTP" ++ Str.quote
   ++ "}]}")%string.

Definition home : JsVal :=
  JObj [("title", JStr "Home"); ("url", JStr "/"); ("type", JStr "HTTP")].

(** [JSON.parse] on the few texts the examples upload; any other text is
    taken here as a syntax error. *)
Definition JSON_parse (text : string) : Completion JsVal :=
  if text =? "null" then Normal JNull
  else if text =? "{}" then Normal (JObj [])
  else if text =? "[]" then Normal (JArr [])
  else if text =? menuText then Normal (JObj [("items", JArr [home])])
  else Throw (SyntaxError "Unexpected token").

(** Scenario 2 of the specification: an item with a resource and a child. *)
Definition shop : JsVal :=
  JObj [("id", JStr "gid://shopify/MenuItem/7");
        ("title", JStr "Shop"); ("url", JStr "/collections/all");
        ("type", JStr "COLLECTION"); ("resourceId", JStr "gid://123");
        ("items",
         JArr [JObj [("title", JStr "Sale"); ("url", JStr "/sale");
                     ("type", JStr "HTTP")]])].

Definition shopSanitized : JsVal :=
  JObj [("title", JStr "Shop"); ("url", JStr "/collections/all");
        ("type", JStr "COLLECTION"); ("resourceId", JStr "gid://123");
        ("items",
         JArr [JObj [("title", JStr "Sale"); ("url", JStr "/sale");
                     ("type", JStr "HTTP")]])].

(** Scenario 1: empty [resourceId], empty [items]. *)
Definition homeRaw : JsVal :=
  JObj [("title", JStr "Home"); ("url", JStr "/"); ("type", JStr "HTTP");
        ("resourceId", JStr ""); ("items", JArr [])].

(** An Admin API that knows one menu and accepts every creation. *)
Definition admin : AdminClient :=
  {| graphql := fun _ c =>
       match c with
       | GET_MENU_DETAILS_QUERY _ | GET_MENU_DETAILS_QUERY_ACTION _ =>
           Normal (JObj [("data",
                          JObj [("menu",
                                 JObj [("handle", JStr "main-menu");
                                       ("title", JStr "Main menu");
                                       ("items", JArr [homeRaw; shop])])])])
       | CREATE_MENU_MUTATION title handle _ =>
           Normal (JObj [("data",
                          JObj [("menuCreate",
                                 JObj [("menu",
                                        JObj [("id", JStr "gid://shopify/Menu/2");
                                              ("handle", JStr handle);
                                              ("title", JStr title)]);
                                       ("userErrors", JArr [])])])])
       end |}.

Definition env : Env :=
  {| authenticate_admin := Normal (Some admin);
     Math_random_toString36 := "0.k3j9x2m7qp" |}.

Definition file (content : string) : FormDataEntryValue :=
  FFile {| size := N.of_nat (String.length content); text := content |}.

Definition post (fd : FormData) : Request :=
  {| searchParams_menuId := None; formData := Normal fd |}.

(** Duplicate forms: complete, without a title, without a menu. *)
Definition duplicateForm : FormData :=
  [("_action", FString "duplicateMenu");
   ("originalMenuId", FString "gid://shopify/Menu/1");
   ("newMenuTitle", FString "  My  New Menu! ")].

Definition duplicateFormNoTitle : FormData :=
  [("_action", FString "duplicateMenu");
   ("originalMenuId", FString "gid://shopify/Menu/1")].

Definition duplicateFormNoMenu : FormData :=
  [("_action", FString "duplicateMenu");
   ("originalMenuId", FString "");
   ("newMenuTitle", FString "Copy")].

(** Import forms around one title. *)
Definition importForm (content : string) : FormData :=
  [("_action", FString "importMenu");
   ("newImportMenuTitle", FString "Imported Main Menu");
   ("menuFile", file content)].

End Sample.

(** ** The rest of the page: its loader and the export download *)

(** *** [loader] of app/routes/app._index.jsx *)

Module IndexLoader.

(** The loader's one query; it takes no variables. *)
Inductive MenusQuery : Type :=
| GET_MENUS_IDS_QUERY.

(** The admin client as this loader uses it:
    [admin.graphql(GET_MENUS_IDS_QUERY)] followed by [response.json()]. *)
Record MenusClient : Type := mkMenusClient {
  graphqlMenus : Completion JsVal
}.

Definition loaderFailed (message : string) : Response :=
  json (JObj [("menus", JArr []);
              ("errors", JArr [messageError (JStr message)]);
              ("actionName", JNull)])
       500.

(** [responseJson.data?.menus?.edges.map(edge => edge.node) || []]: the
    optional chain stops at a missing [data] or [menus]; past them, [edges]
    must be an Array of edges. *)
Definition menusOf (responseJson : JsVal) : Completion JsVal :=
  let menusField := getOpt (prop responseJson "data") "menus" in
  if nullish menusField then Normal (JArr [])
  else
    let edges := prop menusField "edges" in
    if nullish edges
    then Throw (TypeError ("Cannot read properties of " ++ showNullish edges
                             ++ " (reading 'map')"))
    else
      menus <- Array_map "responseJson.data?.menus?.edges" edges
                 (fun edge => get edge "node") ;;
      Normal (orElse menus (JArr [])).

(** [loader({ request })]: the response, or what it throws, and the queries
    sent.  [authenticate_admin] is
    [(await authenticate.admin(request)).admin], [None] when there is no
    admin object or it has no [graphql] function. *)
Definition loader (authenticate_admin : Completion (option MenusClient))
  : Completion Response * list MenusQuery :=
  match authenticate_admin with
  | Throw error =>
      if isResponse error then (Throw error, [])
      else
        (Normal (loaderFailed "Authentication failed or an unexpected error occurred."),
         [])
  | Normal None =>
      (Normal (loaderFailed "Admin context not available after authentication."), [])
  | Normal (Some adminInstance) =>
      let attempt :=
        responseJson <- graphqlMenus adminInstance ;;
        errors <- get responseJson "errors" ;;
        if truthy errors
        then Normal (Response_json (JObj [("menus", JArr []); ("errors", errors);
                                          ("actionName", JNull)]))
        else
          menus <- menusOf responseJson ;;
          Normal (Response_json (JObj [("menus", menus); ("errors", JNull);
                                       ("actionName", JNull)])) in
      match attempt with
      | Normal response => (Normal response, [GET_MENUS_IDS_QUERY])
      | Throw error =>
          if isResponse error then (Throw error, [GET_MENUS_IDS_QUERY])
          else
            (Normal (loaderFailed "Failed to fetch menus after authentication."),
             [GET_MENUS_IDS_QUERY])
      end
  end.

End IndexLoader.

(** *** The export download of the page component *)

Module Client.
Section Page.

(** ECMAScript's ToString on a Number, an Array or an Object: part of the
    engine. *)
Variable ToString_ext : JsVal -> Completion string.

Definition ToString (v : JsVal) : Completion string :=
  match v with
  | JStr s => Normal s
  | JUndefined => Normal "undefined"
  | JNull => Normal "null"
  | JBool b => Normal (if b then "true" else "false")
  | _ => ToString_ext v
  end.

(** [menuToExport.originalTitle?.toLowerCase().replace(/\s+/g, '-')] *)
Definition titleAsHandle (originalTitle : JsVal) : Completion JsVal :=
  match originalTitle with
  | JUndefined | JNull => Normal JUndefined
  | JStr s => Normal (JStr (Str.replaceWhiteSpaceRuns (Str.toLowerCase s)))
  | _ =>
      Throw (TypeError "menuToExport.originalTitle?.toLowerCase is not a function")
  end.

(** The object handed to [JSON.stringify] for the download. *)
Definition exportedDocument (menuToExport : JsVal) : JsVal :=
  JObj [("items", prop menuToExport "items")].

(** [a.download]: the name of the downloaded file, for loader data
    [menuToExport] without an [error]. *)
Definition downloadName (menuToExport : JsVal) : Completion string :=
  let originalHandle := prop menuToExport "originalHandle" in
  handle <-
    (if truthy originalHandle then Normal originalHandle
     else
       fromTitle <- titleAsHandle (prop menuToExport "originalTitle") ;;
       Normal (orElse fromTitle (JStr "menu"))) ;;
  name <- ToString handle ;;
  Normal (name ++ "-export.json")%string.

End Page.
End Client.

(** ** Vocabulary of further properties *)

(** Two items, neither [null] nor [undefined], that agree on the five
    fields the normalizer reads. *)
Definition sameFields (a b : JsVal) : Prop :=
  nullish a = false /\ nullish b = false /\
  forall k, In k allowedFields -> prop a k = prop b k.

Fixpoint allChars (p : ascii -> bool) (s : string) : bool :=
  match s with
  | EmptyString => true
  | String c r => p c && allChars p r
  end.

(** [a-z], [0-9], [_] and [-]. *)
Definition isSlugChar (c : ascii) : bool :=
  let n := nat_of_ascii c in
  (((97 <=? n) && (n <=? 122)) || ((48 <=? n) && (n <=? 57))
   || (n =? 95) || (n =? 45))%nat.

(** A String, [null] or [undefined]: what a nullable GraphQL String field
    decodes to. *)
Definition stringOrAbsent (v : JsVal) : bool :=
  match v with
  | JStr _ | JNull | JUndefined => true
  | _ => false
  end.

(** ** More sample data *)

Module MoreSamples.

(** A redirect thrown by the authentication layer. *)
Definition redirect : Thrown := {| isResponse := true; message := JUndefined |}.


(** An error thrown by the Admin API client. *)
Definition networkError : Thrown :=
  {| isResponse := false; message := JStr "fetch failed" |}.

(** An Admin API client whose every call throws [networkError]. *)
Definition adminDown : AdminClient :=
  {| graphql := fun _ _ => Throw networkError |}.

Definition envDown : Env :=
  {| authenticate_admin := Normal (Some adminDown);
     Math_random_toString36 := "0.k3j9x2m7qp" |}.

Definition envAuthDown : Env :=
  {| authenticate_admin := Throw networkError;
     Math_random_toString36 := "0.k3j9x2m7qp" |}.

Definition envRedirect : Env :=
  {| authenticate_admin := Throw redirect;
     Math_random_toString36 := "0.k3j9x2m7qp" |}.

Definition handleTaken : JsVal :=
  JObj [("code", JStr "TAKEN"); ("field", JArr [JStr "handle"]);
        ("message", JStr "Handle has already been taken")].

(** An Admin API whose one menu holds the item of scenario 1 and which
    refuses every creation with a user error. *)
Definition adminHome : AdminClient :=
  {| graphql := fun _ c =>
       match c with
       | GET_MENU_DETAILS_QUERY _ | GET_MENU_DETAILS_QUERY_ACTION _ =>
           Normal (JObj [("data",
                          JObj [("menu",
                                 JObj [("handle", JStr "main-menu");
                                       ("title", JStr "Main menu");
                                       ("items", JArr [Sample.homeRaw])])])])
       | CREATE_MENU_MUTATION _ _ _ =>
           Normal (JObj [("data",
                          JObj [("menuCreate",
                                 JObj [("menu", JNull);
                                       ("userErrors", JArr [handleTaken])])])])
       end |}.

Definition envHome : Env :=
  {| authenticate_admin := Normal (Some adminHome);
     Math_random_toString36 := "0.k3j9x2m7qp" |}.

Definition exportRequest : Request :=
  {| searchParams_menuId := Some "gid://shopify/Menu/1"; formData := Normal [] |}.

(** A duplicate form whose title is already a slug. *)
Definition slugTitleForm : FormData :=
  [("_action", FString "duplicateMenu");
   ("originalMenuId", FString "gid://shopify/Menu/1");
   ("newMenuTitle", FString "main-menu_2")].

(** The item [Sample.shop] without its [id]. *)
Definition shopWithoutId : JsVal :=
  JObj [("title", JStr "Shop"); ("url", JStr "/collections/all");
        ("type", JStr "COLLECTION"); ("resourceId", JStr "gid://123");
        ("items",
         JArr [JObj [("title", JStr "Sale"); ("url", JStr "/sale");
                     ("type", JStr "HTTP")]])].

Definition mainMenu : JsVal :=
  JObj [("id", JStr "gid://shopify/Menu/1"); ("title", JStr "Main menu")].
Definition footer : JsVal :=
  JObj [("id", JStr "gid://shopify/Menu/2"); ("title", JStr "Footer")].

Definition menusReply : JsVal :=
  JObj [("data",
         JObj [("menus",
                JObj [("edges",
                       JArr [JObj [("node", mainMenu)];
                             JObj [("node", footer)]])])])].

Definition menusClient : IndexLoader.MenusClient :=
  {| IndexLoader.graphqlMenus := Normal menusReply |}.

(** Stands in for the engine's ToString on Numbers and Objects; no example
    below reaches it. *)
Definition ToString_ext (v : JsVal) : Completion string := Normal "".

(** Loader data of an export whose menu has no handle. *)
Definition untitledExport : JsVal :=
  JObj [("originalHandle", JStr ""); ("originalTitle", JStr "Main Menu (old)");
        ("items", JArr [Sample.home])].

End MoreSamples.

(** ** Basic facts about values *)

Lemma bind_Normal {A B} (c : Completion A) (k : A -> Completion B) (b : B) :
  bind c k = Normal b -> exists a, c = Normal a /\ k a = Normal b.
Proof.
  destruct c as [a|e]; simpl; intros H; [eauto | discriminate].
Qed.

Lemma get_defined v k : nullish v = false -> get v k = Normal (prop v k).
Proof. unfold get; intros ->; reflexivity. Qed.

Lemma get_Normal v k x : get v k = Normal x -> nullish v = false /\ x = prop v k.
Proof.
  unfold get; destruct (nullish v); [discriminate|].
  intros H; injection H as <-; auto.
Qed.

Lemma nullish_falsy v : nullish v = true -> truthy v = false.
Proof. destruct v; simpl; congruence. Qed.

Lemma lookup_depth k ps x :
  lookup k ps = Some x -> depth x <= list_max (map (fun p => depth (snd p)) ps).
Proof.
  induction ps as [|[k' v] ps IH]; simpl; [discriminate|].
  destruct (k =? k').
  - intros H; injection H as ->; lia.
  - intros H; specialize (IH H); lia.
Qed.

Lemma prop_depth v k : depth (prop v k) <= Nat.pred (depth v).
Proof.
  destruct v; simpl; try lia.
  - destruct (k =? "length"); simpl; lia.
  - destruct (k =? "length"); simpl; lia.
  - destruct (lookup k props) eqn:E; simpl; [|lia].
    now apply lookup_depth in E.
Qed.

Lemma elem_depth item l : In item l -> depth item < depth (JArr l).
Proof.
  simpl; induction l as [|a l IH]; simpl; [tauto|].
  intros [->|H]; [lia | specialize (IH H); lia].
Qed.

Lemma mapM_ext {A B} (f g : A -> Completion B) l :
  (forall a, In a l -> f a = g a) -> mapM f l = mapM g l.
Proof.
  induction l as [|a l IH]; simpl; intros H; [reflexivity|].
  rewrite (H a) by auto. rewrite IH by auto. reflexivity.
Qed.

Lemma mapM_Forall2 {A B} (f : A -> Completion B) l out :
  mapM f l = Normal out <-> Forall2 (fun a b => f a = Normal b) l out.
Proof.
  revert out; induction l as [|a l IH]; simpl; intros out.
  - split; intros H.
    + injection H as <-; constructor.
    + inversion H; reflexivity.
  - split; intros H.
    + apply bind_Normal in H as (b & Hb & H).
      apply bind_Normal in H as (bs & Hbs & H).
      injection H as <-. constructor; [assumption | now apply IH].
    + inversion H as [|? b ? bs Hb Hbs]; subst.
      rewrite Hb; simpl. apply IH in Hbs. rewrite Hbs; reflexivity.
Qed.

Lemma mapM_total {A B} (f : A -> Completion B) l :
  (forall a, In a l -> exists b, f a = Normal b) ->
  exists out, mapM f l = Normal out.
Proof.
  induction l as [|a l IH]; simpl; intros H; [eauto|].
  destruct (H a) as [b ->]; [auto|].
  destruct IH as [out ->]; [auto|]. simpl; eauto.
Qed.

Lemma Forall2_nth_error_l {A B} (R : A -> B -> Prop) l l' i a :
  Forall2 R l l' -> nth_error l i = Some a ->
  exists b, nth_error l' i = Some b /\ R a b.
Proof.
  intros H; revert i; induction H as [|x y l l' Hxy H IH]; intros [|i]; simpl;
    try discriminate.
  - intros E; injection E as ->; eauto.
  - apply IH.
Qed.

Lemma Forall2_nth_error_r {A B} (R : A -> B -> Prop) l l' i b :
  Forall2 R l l' -> nth_error l' i = Some b ->
  exists a, nth_error l i = Some a /\ R a b.
Proof.
  intros H; revert i; induction H as [|x y l l' Hxy H IH]; intros [|i]; simpl;
    try discriminate.
  - intros E; injection E as ->; eauto.
  - apply IH.
Qed.

(** ** The normalizer *)

Section NormalizerFacts.

Variable ToNumber_ext : JsVal -> Completion Number.

Local Abbreviation prepare := (prepareMenuItemsForCreate ToNumber_ext).
Local Abbreviation callback := (mapCallback ToNumber_ext).

Lemma mapCallback_ext f g item :
  (forall v, depth v <= Nat.pred (depth item) -> f v = g v) ->
  callback f item = callback g item.
Proof.
  intros H. unfold mapCallback.
  destruct (nullish item) eqn:N.
  - unfold get; rewrite N; reflexivity.
  - rewrite !get_defined by assumption. simpl.
    destruct (if truthy (prop item "items") then _ else _) as [[|]|e]; simpl;
      try reflexivity.
    rewrite H by apply prop_depth. reflexivity.
Qed.

Lemma prepareBody_ext f g items :
  (forall v, depth v < depth items -> f v = g v) ->
  prepareBody ToNumber_ext f items = prepareBody ToNumber_ext g items.
Proof.
  intros H. unfold prepareBody.
  destruct (negb (truthy items) || strictEqZero (prop items "length"));
    [reflexivity|].
  destruct items; try reflexivity. simpl.
  rewrite (mapM_ext (callback f) (callback g)); [reflexivity|].
  intros item Hin. apply mapCallback_ext. intros v Hv. apply H.
  apply elem_depth in Hin. lia.
Qed.

Lemma prepareWithin_stable n m v :
  depth v < n -> depth v < m ->
  prepareWithin ToNumber_ext n v = prepareWithin ToNumber_ext m v.
Proof.
  revert m v; induction n as [|n IH]; intros [|m] v Hn Hm; try lia.
  simpl. apply prepareBody_ext. intros w Hw. apply IH; lia.
Qed.

(** The function satisfies its source text: its value is its body, run
    with itself for the recursive call. *)
Lemma prepareMenuItemsForCreate_eq items :
  prepare items = prepareBody ToNumber_ext prepare items.
Proof.
  unfold prepareMenuItemsForCreate at 1. simpl.
  apply prepareBody_ext. intros v Hv.
  unfold prepareMenuItemsForCreate. apply prepareWithin_stable; lia.
Qed.

Lemma prepare_falsy v : truthy v = false -> prepare v = Normal (JArr []).
Proof.
  intros H. rewrite prepareMenuItemsForCreate_eq. unfold prepareBody.
  rewrite H. reflexivity.
Qed.

(** On an Array the function is [items.map] of the callback; the guard
    for the empty Array returns what [map] would. *)
Lemma prepare_JArr l :
  prepare (JArr l) = out <- mapM (callback prepare) l ;; Normal (JArr out).
Proof.
  rewrite prepareMenuItemsForCreate_eq at 1. unfold prepareBody.
  destruct l as [|a l]; reflexivity.
Qed.

Lemma gtZero_zero v : strictEqZero v = true -> gtZero ToNumber_ext v = Normal false.
Proof.
  destruct v as [| | |[]| | |]; simpl; try discriminate. reflexivity.
Qed.

Lemma gtZero_length_JArr l :
  gtZero ToNumber_ext (prop (JArr l) "length") = Normal (negb (Nat.eqb (List.length l) 0)).
Proof. destruct l; reflexivity. Qed.

(** A returned value is an Array: the image of the input's elements under
    the callback, position by position. *)
Lemma prepare_Normal v x :
  prepare v = Normal x ->
  exists outs, x = JArr outs /\
    Forall2 (fun a b => callback prepare a = Normal b) (elements v) outs.
Proof.
  rewrite prepareMenuItemsForCreate_eq. unfold prepareBody.
  destruct (negb (truthy v) || strictEqZero (prop v "length")) eqn:E.
  - intros H; injection H as <-. exists []; split; [reflexivity|].
    destruct v; simpl; try constructor.
    destruct elems; [constructor | discriminate].
  - destruct v; simpl; try discriminate.
    intros H. apply bind_Normal in H as (outs & Hm & H). injection H as <-.
    exists outs; split; [reflexivity|]. now apply mapM_Forall2.
Qed.

Lemma prepare_JArr_Forall2 l outs :
  prepare (JArr l) = Normal (JArr outs) <->
  Forall2 (fun a b => callback prepare a = Normal b) l outs.
Proof.
  rewrite prepare_JArr. split.
  - intros H. apply bind_Normal in H as (out & Hm & H). injection H as <-.
    now apply mapM_Forall2.
  - intros H. apply mapM_Forall2 in H. rewrite H. reflexivity.
Qed.

(** A child sequence that passes the callback's test is a non-empty Array,
    and so is its sanitized copy. *)
Lemma prepare_nonempty v x :
  truthy v = true ->
  gtZero ToNumber_ext (prop v "length") = Normal true ->
  prepare v = Normal x ->
  exists a l b outs, v = JArr (a :: l) /\ x = JArr (b :: outs).
Proof.
  intros T G. rewrite prepareMenuItemsForCreate_eq. unfold prepareBody.
  rewrite T. simpl.
  destruct (strictEqZero (prop v "length")) eqn:Z.
  - rewrite (gtZero_zero _ Z) in G. discriminate.
  - destruct v; simpl; try discriminate.
    destruct elems as [|a l]; [discriminate|]. simpl.
    intros H. apply bind_Normal in H as (out & Hm & H). injection H as <-.
    apply bind_Normal in Hm as (b & _ & Hm).
    apply bind_Normal in Hm as (bs & _ & Hm). injection Hm as <-.
    now exists a, l, b, bs.
Qed.

Lemma elements_depth item v : In item (elements v) -> depth item < depth v.
Proof.
  destruct v; simpl; try tauto. apply elem_depth.
Qed.

(** What the callback returns, when it returns. *)
Lemma mapCallback_Normal self item o :
  callback self item = Normal o ->
  nullish item = false /\
  ((o = JObj (withResourceId item) /\
    (truthy (prop item "items") = false \/
     gtZero ToNumber_ext (prop (prop item "items") "length") = Normal false))
   \/
   (exists sub,
      o = JObj (withResourceId item ++ [("items", sub)]) /\
      truthy (prop item "items") = true /\
      gtZero ToNumber_ext (prop (prop item "items") "length") = Normal true /\
      self (prop item "items") = Normal sub)).
Proof.
  unfold mapCallback. destruct (nullish item) eqn:N.
  - unfold get; rewrite N; discriminate.
  - rewrite !get_defined by assumption. simpl. split; [reflexivity|].
    unfold withResourceId, baseFields.
    destruct (truthy (prop item "items")) eqn:T.
    + destruct (gtZero ToNumber_ext _) as [[|]|e]; simpl in *; try discriminate.
      * destruct (self (prop item "items")) as [sub|e]; simpl in *;
          [|discriminate].
        right. exists sub.
        destruct (truthy (prop item "resourceId")); simpl in *;
          injection H as <-; auto.
      * left. destruct (truthy (prop item "resourceId")); simpl in *;
          injection H as <-; auto.
    + simpl in *. left.
      destruct (truthy (prop item "resourceId")); simpl in *;
        injection H as <-; auto.
Qed.

Lemma mapCallback_total item :
  nullish item = false ->
  MenuItems (prop item "items") ->
  (exists sub, prepare (prop item "items") = Normal sub) ->
  exists o, callback prepare item = Normal o.
Proof.
  intros N M [sub Hsub]. unfold mapCallback.
  rewrite !get_defined by assumption. simpl.
  destruct (truthy (prop item "items")) eqn:T; simpl; [|eauto].
  inversion M as [v F|l _ _ E]; [congruence|].
  rewrite gtZero_length_JArr. simpl.
  destruct (negb (Nat.eqb (List.length l) 0)); [|eauto].
  rewrite Hsub. simpl. eauto.
Qed.

(** On a well-formed item sequence the function returns. *)
Lemma prepare_total v : MenuItems v -> exists out, prepare v = Normal out.
Proof.
  induction 1 as [v F|l N M IH].
  - rewrite prepare_falsy by assumption. eauto.
  - rewrite prepare_JArr.
    destruct (mapM_total (callback prepare) l) as [out ->]; [|simpl; eauto].
    intros item Hin. apply mapCallback_total; auto.
Qed.

(** C1. The normalizer keeps length and order: for every well-formed item
    sequence it returns an Array of the same length whose i-th element is
    the callback's copy of the i-th input element; for [undefined], [null]
    and the empty Array it returns the empty Array. *)
Theorem prepare_same_length_and_order :
  prepareMenuItemsForCreate ToNumber_ext JUndefined = Normal (JArr []) /\
  prepareMenuItemsForCreate ToNumber_ext JNull = Normal (JArr []) /\
  prepareMenuItemsForCreate ToNumber_ext (JArr []) = Normal (JArr []) /\
  forall l, MenuItems (JArr l) ->
    exists outs,
      prepareMenuItemsForCreate ToNumber_ext (JArr l) = Normal (JArr outs) /\
      List.length outs = List.length l /\
      forall i item, nth_error l i = Some item ->
        exists o,
          nth_error outs i = Some o /\
          mapCallback ToNumber_ext (prepareMenuItemsForCreate ToNumber_ext) item
          = Normal o.
Proof.
  split; [apply prepare_falsy; reflexivity|].
  split; [apply prepare_falsy; reflexivity|].
  split; [rewrite prepare_JArr; reflexivity|].
  intros l M. destruct (prepare_total _ M) as [out Hout].
    pose proof Hout as Hout'. rewrite prepare_JArr in Hout'.
    apply bind_Normal in Hout' as (outs & Hm & E). injection E as <-.
    apply mapM_Forall2 in Hm. exists outs. split; [assumption|]. split.
    + symmetry. eapply Forall2_length; eassumption.
    + intros i item Hi.
      exact (Forall2_nth_error_l _ _ _ _ _ Hm Hi).
Qed.

(** C3. A falsy or absent [resourceId] (the empty string included) leaves
    the output item without a [resourceId] field; a truthy one is copied
    as it is. *)
Theorem prepare_resourceId l outs i item o :
  prepareMenuItemsForCreate ToNumber_ext (JArr l) = Normal (JArr outs) ->
  nth_error l i = Some item ->
  nth_error outs i = Some o ->
  (truthy (prop item "resourceId") = false -> hasProp o "resourceId" = false) /\
  (prop item "resourceId" = JStr "" -> hasProp o "resourceId" = false) /\
  (truthy (prop item "resourceId") = true ->
     hasProp o "resourceId" = true /\
     prop o "resourceId" = prop item "resourceId").
Proof.
  intros H Hi Ho. apply prepare_JArr_Forall2 in H.
  destruct (Forall2_nth_error_l _ _ _ _ _ H Hi) as (o' & Ho' & Hc).
  assert (o' = o) by congruence; subst o'.
  apply mapCallback_Normal in Hc as (_ & [(-> & _)|(sub & -> & _)]);
    unfold withResourceId, baseFields;
    (split; [|split]);
    try (intros E; rewrite E; reflexivity);
    intros E; rewrite E; simpl; auto.
Qed.

(** C4. Absent or empty children leave the output item without an [items]
    field; a non-empty child Array gives an [items] field holding the
    normalizer's result on that Array. *)
Theorem prepare_children l outs i item o :
  prepareMenuItemsForCreate ToNumber_ext (JArr l) = Normal (JArr outs) ->
  nth_error l i = Some item ->
  nth_error outs i = Some o ->
  (truthy (prop item "items") = false \/ prop item "items" = JArr [] ->
     hasProp o "items" = false) /\
  (forall c cs, prop item "items" = JArr (c :: cs) ->
     hasProp o "items" = true /\
     prepareMenuItemsForCreate ToNumber_ext (JArr (c :: cs))
     = Normal (prop o "items")).
Proof.
  intros H Hi Ho. apply prepare_JArr_Forall2 in H.
  destruct (Forall2_nth_error_l _ _ _ _ _ H Hi) as (o' & Ho' & Hc).
  assert (o' = o) by congruence; subst o'.
  apply mapCallback_Normal in Hc as (_ & [(-> & Hno)|(sub & -> & T & G & Hsub)]).
  - split.
    + intros _. unfold withResourceId, baseFields.
      destruct (truthy (prop item "resourceId")); reflexivity.
    + intros c cs E. rewrite E in Hno. destruct Hno; discriminate.
  - split.
    + intros [F|E]; [congruence|]. rewrite E in G. discriminate.
    + intros c cs E. rewrite <- E.
      unfold withResourceId, baseFields.
      destruct (truthy (prop item "resourceId")); simpl; auto.
Qed.

Lemma withResourceId_allowed item :
  incl (map fst (withResourceId item)) allowedFields.
Proof.
  unfold withResourceId, baseFields, allowedFields.
  destruct (truthy (prop item "resourceId")); intros k; simpl; tauto.
Qed.

Lemma prepare_SanitizedCopy_within n :
  forall v out, depth v < n -> prepare v = Normal out -> SanitizedCopy v out.
Proof.
  induction n as [|n IH]; intros v out Hd H; [lia|].
  apply prepare_Normal in H as (outs & -> & F).
  constructor.
  - symmetry. eapply Forall2_length; eassumption.
  - intros i o Ho.
    destruct (Forall2_nth_error_r _ _ _ _ _ F Ho) as (item & Hi & Hc).
    apply mapCallback_Normal in Hc as (_ & [(-> & _)|(sub & -> & _)]).
    + exists item, (withResourceId item).
      repeat split; auto using withResourceId_allowed;
        unfold withResourceId, baseFields;
        destruct (truthy (prop item "resourceId")); reflexivity.
    + exists item, (withResourceId item ++ [("items", sub)]).
      repeat split; auto;
        [| unfold withResourceId, baseFields;
           destruct (truthy (prop item "resourceId")); reflexivity ..].
      rewrite map_app. apply incl_app; [apply withResourceId_allowed|].
      unfold allowedFields; intros k; simpl; tauto.
  - intros i o item Ho Hi Hhas.
    destruct (Forall2_nth_error_l _ _ _ _ _ F Hi) as (o' & Ho' & Hc).
    assert (o' = o) by congruence; subst o'.
    apply nth_error_In, elements_depth in Hi.
    pose proof (prop_depth item "items") as Hp.
    apply mapCallback_Normal in Hc as (_ & [(-> & _)|(sub & -> & _ & _ & Hsub)]).
    + exfalso. revert Hhas. unfold withResourceId, baseFields.
      destruct (truthy (prop item "resourceId")); discriminate.
    + replace (prop (JObj (withResourceId item ++ [("items", sub)])) "items")
        with sub.
      * apply IH; [lia | assumption].
      * unfold withResourceId, baseFields.
        destruct (truthy (prop item "resourceId")); reflexivity.
Qed.

(** C2. Whatever the normalizer returns is a sanitized copy of its input:
    at every nesting depth each output record has only fields among
    [title], [url], [type], [resourceId], [items], sits at the position of
    the input item it was made from, and carries that item's [title], [url]
    and [type] values unchanged. *)
Theorem prepare_only_allowed_fields items out :
  prepareMenuItemsForCreate ToNumber_ext items = Normal out ->
  SanitizedCopy items out.
Proof.
  apply (prepare_SanitizedCopy_within (S (depth items))). lia.
Qed.

Lemma Forall2_diag {A} (R : A -> A -> Prop) l :
  (forall a, In a l -> R a a) -> Forall2 R l l.
Proof.
  induction l as [|a l IH]; intros H; constructor.
  - apply H; simpl; auto.
  - apply IH; intros b Hb; apply H; simpl; auto.
Qed.

(** The callback returns its own results unchanged, provided the
    normalizer does so for the children it copied. *)
Lemma mapCallback_fixed item o :
  callback prepare item = Normal o ->
  (forall sub, prepare (prop item "items") = Normal sub ->
               prepare sub = Normal sub) ->
  callback prepare o = Normal o.
Proof.
  intros Hc IH.
  apply mapCallback_Normal in Hc as (_ & [(-> & _)|(sub & -> & T & G & Hsub)]).
  - unfold mapCallback, withResourceId, baseFields.
    destruct (truthy (prop item "resourceId")) eqn:R; simpl;
      rewrite ?R; reflexivity.
  - destruct (prepare_nonempty _ _ T G Hsub) as (a & l & b & outs & _ & ->).
    specialize (IH _ Hsub).
    unfold mapCallback, withResourceId, baseFields.
    destruct (truthy (prop item "resourceId")) eqn:R; simpl;
      rewrite ?R; simpl; rewrite IH; reflexivity.
Qed.

Lemma prepare_idempotent_within n :
  forall y x, depth y < n -> prepare y = Normal x -> prepare x = Normal x.
Proof.
  induction n as [|n IH]; intros y x Hd H; [lia|].
  apply prepare_Normal in H as (outs & -> & F).
  apply prepare_JArr_Forall2. apply Forall2_diag. intros o Ho.
  apply In_nth_error in Ho as [i Ho].
  destruct (Forall2_nth_error_r _ _ _ _ _ F Ho) as (item & Hi & Hc).
  apply mapCallback_fixed with (item := item); [assumption|].
  intros sub Hsub. apply IH with (y := prop item "items"); [|assumption].
  apply nth_error_In, elements_depth in Hi.
  pose proof (prop_depth item "items"). lia.
Qed.

(** C5. The normalizer is idempotent: a value it returned is returned
    unchanged when normalized again; as an equation between runs,
    normalizing twice is normalizing once. *)
Theorem prepare_idempotent :
  (forall y x,
     prepareMenuItemsForCreate ToNumber_ext y = Normal x ->
     prepareMenuItemsForCreate ToNumber_ext x = Normal x) /\
  (forall y,
     (x <- prepareMenuItemsForCreate ToNumber_ext y ;;
      prepareMenuItemsForCreate ToNumber_ext x)
     = prepareMenuItemsForCreate ToNumber_ext y).
Proof.
  assert (forall y x, prepare y = Normal x -> prepare x = Normal x) as H.
  { intros y x. apply (prepare_idempotent_within (S (depth y))). lia. }
  split; [exact H|].
  intros y. destruct (prepare y) as [x|e] eqn:E; simpl; [|reflexivity].
  now apply H with (y := y).
Qed.

End NormalizerFacts.

(** ** The export endpoint *)

Section ExportFacts.

Variable ToNumber_ext : JsVal -> Completion Number.


End ExportFacts.

(** ** Strings *)

Lemma trimStart_head s :
  Str.trimStart s = EmptyString \/
  exists c r, Str.trimStart s = String c r /\ Str.isWhiteSpace c = false.
Proof.
  induction s as [|c r IH]; simpl; [auto|].
  destruct (Str.isWhiteSpace c) eqn:W; [assumption|eauto].
Qed.

Lemma trimEnd_head c r :
  Str.isWhiteSpace c = false ->
  exists r', Str.trimEnd (String c r) = String c r'.
Proof.
  intros W. simpl. destruct (Str.trimEnd r); [rewrite W|]; eauto.
Qed.

Lemma trimEnd_idempotent s : Str.trimEnd (Str.trimEnd s) = Str.trimEnd s.
Proof.
  induction s as [|c r IH]; simpl; [reflexivity|].
  destruct (Str.trimEnd r) as [|c' r'] eqn:E.
  - destruct (Str.isWhiteSpace c) eqn:W; simpl; [reflexivity|].
    rewrite W. reflexivity.
  - change (Str.trimEnd (String c (String c' r')))
      with (match Str.trimEnd (String c' r') with
            | EmptyString =>
                if Str.isWhiteSpace c then EmptyString else String c EmptyString
            | r'' => String c r''
            end).
    rewrite IH. reflexivity.
Qed.

Lemma trim_idempotent s : Str.trim (Str.trim s) = Str.trim s.
Proof.
  unfold Str.trim.
  destruct (trimStart_head s) as [E|(c & r & E & W)]; rewrite E.
  - reflexivity.
  - destruct (trimEnd_head c r W) as [r' E'].
    assert (Str.trimStart (Str.trimEnd (String c r)) = Str.trimEnd (String c r))
      as ->.
    { rewrite E'. simpl. rewrite W. reflexivity. }
    apply trimEnd_idempotent.
Qed.

(** The handlers' two [replace] calls after [toLowerCase] compute the
    slug. *)
Lemma handle_pipeline_slugFrom inRun title :
  Str.removeNonWordHyphen
    (Str.replaceWhiteSpaceRunsFrom inRun (Str.toLowerCase title))
  = slugFrom inRun title.
Proof.
  revert inRun; induction title as [|c r IH]; intros inRun; simpl;
    [reflexivity|].
  destruct (Str.isWhiteSpace (Str.lowerChar c)).
  - destruct inRun; simpl; rewrite IH; reflexivity.
  - simpl. rewrite IH. reflexivity.
Qed.

Lemma handle_pipeline_slug title :
  Str.removeNonWordHyphen (Str.replaceWhiteSpaceRuns (Str.toLowerCase title))
  = slug title.
Proof. apply handle_pipeline_slugFrom. Qed.

(** ** The page's action *)

(** Case analysis on whatever the goal branches on. *)
Ltac case_scrutinee :=
  match goal with
  | |- context [match ?x with _ => _ end] =>
      lazymatch x with
      | context [match _ with _ => _ end] => fail
      | _ => destruct x eqn:?
      end
  end.

Ltac run_handler :=
  cbv [run hbind tryCatch call lift ret]; cbn beta iota.

Section IndexFacts.

Variable ToNumber_ext : JsVal -> Completion Number.
Variable JSON_parse : string -> Completion JsVal.

Local Abbreviation duplicateMenu := (Index.duplicateMenu ToNumber_ext).
Local Abbreviation importMenu := (Index.importMenu ToNumber_ext JSON_parse).
Local Abbreviation action := (Index.action ToNumber_ext JSON_parse).

Lemma duplicateMenu_create env admin fd title handle items :
  In (CREATE_MENU_MUTATION title handle items)
     (snd (run (duplicateMenu env admin fd))) ->
  submittedTitle fd "newMenuTitle" = Some title /\
  handle = (slug title ++ "-" ++ substring 2 6 (Math_random_toString36 env))%string.
Proof.
  unfold Index.duplicateMenu, submittedTitle. run_handler.
  repeat case_scrutinee; simpl;
    intros H; repeat (destruct H as [H|H]; try discriminate H); try contradiction.
  all: injection H as <- <- <-; rewrite handle_pipeline_slug; auto.
Qed.

Lemma importMenu_create env admin fd title handle items :
  In (CREATE_MENU_MUTATION title handle items)
     (snd (run (importMenu env admin fd))) ->
  submittedTitle fd "newImportMenuTitle" = Some title /\
  handle = (slug title ++ "-" ++ substring 2 6 (Math_random_toString36 env))%string.
Proof.
  unfold Index.importMenu, submittedTitle. run_handler.
  repeat case_scrutinee; simpl;
    intros H; repeat (destruct H as [H|H]; try discriminate H); try contradiction.
  all: injection H as <- <- <-; rewrite handle_pipeline_slug; auto.
Qed.

(** C8. Whenever the duplicate or the import flow submits a menu creation,
    its handle is the slug of the (trimmed) new title, a hyphen, and the
    random suffix; the slug is the same function of the title in both
    flows. *)
Theorem handle_is_slug_hyphen_suffix env request title handle items :
  In (CREATE_MENU_MUTATION title handle items)
     (snd (run (Index.action ToNumber_ext JSON_parse env request))) ->
  (exists fd,
     formData request = Normal fd /\
     (submittedTitle fd "newMenuTitle" = Some title \/
      submittedTitle fd "newImportMenuTitle" = Some title)) /\
  handle = (slug title ++ "-" ++ substring 2 6 (Math_random_toString36 env))%string.
Proof.
  unfold Index.action. run_handler.
  destruct (authenticate_admin env) as [[admin|]|e]; simpl; try tauto.
  destruct (formData request) as [fd|e]; simpl; try tauto.
  destruct (entryIs (FormData_get fd "_action") "duplicateMenu").
  - intros H. apply duplicateMenu_create in H as [Ht ->].
    split; [exists fd; auto | reflexivity].
  - destruct (entryIs (FormData_get fd "_action") "importMenu");
      simpl; try tauto.
    intros H. apply importMenu_create in H as [Ht ->].
    split; [exists fd; auto | reflexivity].
Qed.

(** The validation gate of each flow. *)
Lemma duplicateMenu_invalid env admin fd :
  truthyEntry (FormData_get fd "originalMenuId") = false \/
  truthyString (submittedTitle fd "newMenuTitle") = false ->
  run (duplicateMenu env admin fd)
  = (Normal (Index.validationFailed "duplicateMenu"
               "Original menu and new title are required."), []).
Proof.
  unfold Index.duplicateMenu, submittedTitle. intros [H|H]; rewrite H; simpl.
  - reflexivity.
  - rewrite orb_true_r. reflexivity.
Qed.

Lemma importMenu_invalid env admin fd :
  truthyString (submittedTitle fd "newImportMenuTitle") = false \/
  truthyEntry (FormData_get fd "menuFile") = false \/
  isStringEntry (FormData_get fd "menuFile") = true \/
  sizeIsZero (FormData_get fd "menuFile") = true ->
  run (importMenu env admin fd)
  = (Normal (Index.validationFailed "importMenu"
               "New menu title and a valid JSON file are required."), []).
Proof.
  unfold Index.importMenu, submittedTitle. intros [H|[H|[H|H]]]; rewrite H;
    simpl; rewrite ?orb_true_r; reflexivity.
Qed.

Lemma entryIs_eq v s : entryIs v s = true -> v = Some (FString s).
Proof.
  destruct v as [[t|f]|]; simpl; try discriminate.
  intros H. apply String.eqb_eq in H. now subst.
Qed.

Lemma action_duplicateMenu env request admin fd :
  authenticate_admin env = Normal (Some admin) ->
  formData request = Normal fd ->
  entryIs (FormData_get fd "_action") "duplicateMenu" = true ->
  run (action env request) = run (duplicateMenu env admin fd).
Proof.
  intros A F E. unfold Index.action. run_handler. rewrite A, F.
  cbn beta iota. rewrite E. reflexivity.
Qed.

Lemma action_importMenu env request admin fd :
  authenticate_admin env = Normal (Some admin) ->
  formData request = Normal fd ->
  entryIs (FormData_get fd "_action") "importMenu" = true ->
  run (action env request) = run (importMenu env admin fd).
Proof.
  intros A F E. unfold Index.action. run_handler. rewrite A, F.
  cbn beta iota. apply entryIs_eq in E. rewrite E. reflexivity.
Qed.

(** C7, as the code has it. With a required field missing, the action
    makes no Admin API call and returns one validation error; its field
    tag is ["form"] whichever field is missing, in both flows. *)
Theorem missing_field_is_a_form_error env request admin fd :
  authenticate_admin env = Normal (Some admin) ->
  formData request = Normal fd ->
  (entryIs (FormData_get fd "_action") "duplicateMenu" = true ->
   truthyEntry (FormData_get fd "originalMenuId") = false \/
   truthyString (submittedTitle fd "newMenuTitle") = false ->
   run (Index.action ToNumber_ext JSON_parse env request)
   = (Normal (Response_json
        (JObj [("actionName", JStr "duplicateMenu"); ("success", JBool false);
               ("errors",
                JArr [JObj [("field", JArr [JStr "form"]);
                            ("message",
                             JStr "Original menu and new title are required.")]])])),
      [])) /\
  (entryIs (FormData_get fd "_action") "importMenu" = true ->
   truthyString (submittedTitle fd "newImportMenuTitle") = false \/
   truthyEntry (FormData_get fd "menuFile") = false \/
   isStringEntry (FormData_get fd "menuFile") = true \/
   sizeIsZero (FormData_get fd "menuFile") = true ->
   run (Index.action ToNumber_ext JSON_parse env request)
   = (Normal (Response_json
        (JObj [("actionName", JStr "importMenu"); ("success", JBool false);
               ("errors",
                JArr [JObj [("field", JArr [JStr "form"]);
                            ("message",
                             JStr "New menu title and a valid JSON file are required.")]])])),
      [])).
Proof.
  intros A F. split; intros E H.
  - rewrite (action_duplicateMenu _ _ _ _ A F E).
    now apply duplicateMenu_invalid.
  - rewrite (action_importMenu _ _ _ _ A F E).
    now apply importMenu_invalid.
Qed.

(** The title reaches each flow trimmed. *)
Lemma duplicateMenu_trim env admin fd t :
  duplicateMenu env admin (("newMenuTitle", FString t) :: fd)
  = duplicateMenu env admin (("newMenuTitle", FString (Str.trim t)) :: fd).
Proof.
  unfold Index.duplicateMenu. simpl. rewrite trim_idempotent. reflexivity.
Qed.

Lemma importMenu_trim env admin fd t :
  importMenu env admin (("newImportMenuTitle", FString t) :: fd)
  = importMenu env admin (("newImportMenuTitle", FString (Str.trim t)) :: fd).
Proof.
  unfold Index.importMenu. simpl. rewrite trim_idempotent. reflexivity.
Qed.

Lemma action_trim name env request t :
  name = "newMenuTitle" \/ name = "newImportMenuTitle" ->
  run (action env (withEntry name (FString t) request))
  = run (action env (withEntry name (FString (Str.trim t)) request)).
Proof.
  intros Hn. unfold Index.action, withEntry. run_handler. simpl.
  destruct (authenticate_admin env) as [[admin|]|e]; try reflexivity.
  destruct (formData request) as [fd|e]; simpl; [|reflexivity].
  destruct Hn as [-> | ->]; simpl.
  - destruct (entryIs (FormData_get fd "_action") "duplicateMenu").
    + rewrite duplicateMenu_trim. reflexivity.
    + reflexivity.
  - destruct (entryIs (FormData_get fd "_action") "duplicateMenu");
      [reflexivity|].
    destruct (entryIs (FormData_get fd "_action") "importMenu");
      [|reflexivity].
    rewrite importMenu_trim. reflexivity.
Qed.

Lemma action_blank_title name env request fd t :
  name = "newMenuTitle" \/ name = "newImportMenuTitle" ->
  formData request = Normal fd ->
  FormData_get fd name = None ->
  Str.trim t = "" ->
  run (action env (withEntry name (FString t) request))
  = run (action env request).
Proof.
  intros Hn F G T. unfold Index.action, withEntry. run_handler. simpl.
  destruct (authenticate_admin env) as [[admin|]|e]; try reflexivity.
  rewrite F. simpl.
  destruct Hn as [-> | ->]; simpl.
  - destruct (entryIs (FormData_get fd "_action") "duplicateMenu");
      [|reflexivity].
    unfold Index.duplicateMenu. simpl. rewrite G, T. simpl.
    rewrite !orb_true_r. reflexivity.
  - destruct (entryIs (FormData_get fd "_action") "duplicateMenu");
      [reflexivity|].
    destruct (entryIs (FormData_get fd "_action") "importMenu");
      [|reflexivity].
    unfold Index.importMenu. simpl. rewrite G, T. reflexivity.
Qed.

(** Past its validation gate the duplicate flow fetches the menu, and on a
    usable reply creates the copy under the title it validated. *)
Lemma duplicateMenu_fetches env admin fd id title :
  FormData_get fd "originalMenuId" = Some id ->
  truthyEntry (Some id) = true ->
  submittedTitle fd "newMenuTitle" = Some title ->
  title <> "" ->
  exists rest,
    snd (run (duplicateMenu env admin fd))
    = GET_MENU_DETAILS_QUERY_ACTION id :: rest.
Proof.
  intros Hi Ti Ht Hne. unfold Index.duplicateMenu.
  unfold submittedTitle in Ht. rewrite Hi, Ht, Ti.
  apply String.eqb_neq in Hne. simpl. rewrite Hne. simpl. run_handler.
  repeat case_scrutinee; simpl; eauto.
Qed.

Lemma duplicateMenu_creates env admin fd id title reply items :
  FormData_get fd "originalMenuId" = Some id ->
  truthyEntry (Some id) = true ->
  submittedTitle fd "newMenuTitle" = Some title ->
  title <> "" ->
  graphql admin [] (GET_MENU_DETAILS_QUERY_ACTION id) = Normal reply ->
  truthy (prop reply "errors") = false ->
  truthy (prop (prop reply "data") "menu") = true ->
  prepareMenuItemsForCreate ToNumber_ext
    (prop (prop (prop reply "data") "menu") "items") = Normal items ->
  snd (run (duplicateMenu env admin fd))
  = [GET_MENU_DETAILS_QUERY_ACTION id;
     CREATE_MENU_MUTATION title
       (slug title ++ "-" ++ substring 2 6 (Math_random_toString36 env))%string
       items].
Proof.
  intros Hi Ti Ht Hne G T Tm P. unfold Index.duplicateMenu.
  unfold submittedTitle in Ht. rewrite Hi, Ht, Ti.
  apply String.eqb_neq in Hne. simpl. rewrite Hne. simpl. run_handler.
  rewrite G. cbn beta iota.
  assert (nullish reply = false) as Nr.
  { destruct reply; try reflexivity; discriminate Tm. }
  rewrite (get_defined _ _ Nr). cbn beta iota. rewrite T.
  assert (nullish (prop reply "data") = false) as Nd.
  { destruct (prop reply "data"); try reflexivity; discriminate Tm. }
  unfold getOpt at 1. rewrite Nd, Tm. simpl. rewrite P. cbn beta iota.
  rewrite handle_pipeline_slug.
  repeat case_scrutinee; reflexivity.
Qed.

Lemma importMenu_creates env admin fd title file doc l items :
  submittedTitle fd "newImportMenuTitle" = Some title ->
  title <> "" ->
  FormData_get fd "menuFile" = Some (FFile file) ->
  size file <> 0%N ->
  JSON_parse (text file) = Normal doc ->
  prop doc "items" = JArr l ->
  prepareMenuItemsForCreate ToNumber_ext (JArr l) = Normal items ->
  snd (run (importMenu env admin fd))
  = [CREATE_MENU_MUTATION title
       (slug title ++ "-" ++ substring 2 6 (Math_random_toString36 env))%string
       items].
Proof.
  intros Ht Hne Hf Hs Hd Hi Hp. unfold Index.importMenu.
  unfold submittedTitle in Ht. rewrite Ht, Hf. simpl.
  apply String.eqb_neq in Hne. rewrite Hne.
  apply N.eqb_neq in Hs. rewrite Hs. simpl. run_handler.
  rewrite Hd. cbn beta iota.
  assert (nullish doc = false) as N.
  { destruct doc; try reflexivity; discriminate Hi. }
  rewrite (get_defined _ _ N). cbn beta iota. rewrite Hi. simpl.
  rewrite Hp. cbn beta iota. rewrite handle_pipeline_slug.
  repeat case_scrutinee; reflexivity.
Qed.

(** C10. Both flows trim the submitted title before any use.
    - Submitting a title or its trimmed form gives the same run (same
      Admin API calls, same response).
    - Validation: a title of whitespace alone gives the run of the request
      without a title field, the flow's validation error with no Admin API
      call; a title with anything else in it passes the gate (the duplicate
      flow goes on to fetch the selected menu).
    - Creation: the menu is created under the trimmed title, with the
      handle generated from the trimmed title. *)
Theorem title_is_trimmed_before_use name flow msg env request t :
  In (name, (flow, msg)) titleFields ->
  run (Index.action ToNumber_ext JSON_parse env (withEntry name (FString t) request))
  = run (Index.action ToNumber_ext JSON_parse env (withEntry name (FString (Str.trim t)) request))
  /\
  (forall fd,
     formData request = Normal fd ->
     FormData_get fd name = None ->
     Str.trim t = "" ->
     run (Index.action ToNumber_ext JSON_parse env (withEntry name (FString t) request))
     = run (Index.action ToNumber_ext JSON_parse env request)
     /\
     forall admin,
       authenticate_admin env = Normal (Some admin) ->
       entryIs (FormData_get fd "_action") flow = true ->
       run (Index.action ToNumber_ext JSON_parse env (withEntry name (FString t) request))
       = (Normal (Index.validationFailed flow msg), []))
  /\
  (forall admin fd,
     authenticate_admin env = Normal (Some admin) ->
     formData request = Normal fd ->
     entryIs (FormData_get fd "_action") flow = true ->
     Str.trim t <> "" ->
     (forall id,
        flow = "duplicateMenu" ->
        FormData_get fd "originalMenuId" = Some id ->
        truthyEntry (Some id) = true ->
        (exists rest,
           snd (run (Index.action ToNumber_ext JSON_parse env
                       (withEntry name (FString t) request)))
           = GET_MENU_DETAILS_QUERY_ACTION id :: rest)
        /\
        forall reply items,
          graphql admin [] (GET_MENU_DETAILS_QUERY_ACTION id) = Normal reply ->
          truthy (prop reply "errors") = false ->
          truthy (prop (prop reply "data") "menu") = true ->
          prepareMenuItemsForCreate ToNumber_ext
            (prop (prop (prop reply "data") "menu") "items") = Normal items ->
          snd (run (Index.action ToNumber_ext JSON_parse env
                      (withEntry name (FString t) request)))
          = [GET_MENU_DETAILS_QUERY_ACTION id;
             CREATE_MENU_MUTATION (Str.trim t)
               (slug (Str.trim t) ++ "-"
                ++ substring 2 6 (Math_random_toString36 env))%string
               items])
     /\
     (forall file doc l items,
        flow = "importMenu" ->
        FormData_get fd "menuFile" = Some (FFile file) ->
        size file <> 0%N ->
        JSON_parse (text file) = Normal doc ->
        prop doc "items" = JArr l ->
        prepareMenuItemsForCreate ToNumber_ext (JArr l) = Normal items ->
        snd (run (Index.action ToNumber_ext JSON_parse env
                    (withEntry name (FString t) request)))
        = [CREATE_MENU_MUTATION (Str.trim t)
             (slug (Str.trim t) ++ "-"
              ++ substring 2 6 (Math_random_toString36 env))%string
             items])).
Proof.
  intros Hin.
  assert (name = "newMenuTitle" \/ name = "newImportMenuTitle") as Hn.
  { destruct Hin as [E|[E|[]]]; injection E as <- _ _; auto. }
  split; [now apply action_trim|]. split.
  - intros fd F G T. split; [now apply action_blank_title with (fd := fd)|].
    intros admin A E.
    rewrite (action_blank_title name env request fd t Hn F G T).
    destruct Hin as [Hin|[Hin|[]]]; injection Hin as <- <- <-.
    + rewrite (action_duplicateMenu _ _ _ _ A F E).
      apply duplicateMenu_invalid. right. unfold submittedTitle. rewrite G.
      reflexivity.
    + rewrite (action_importMenu _ _ _ _ A F E).
      apply importMenu_invalid. left. unfold submittedTitle. rewrite G.
      reflexivity.
  - intros admin fd A F E T.
    assert (formData (withEntry name (FString t) request)
            = Normal ((name, FString t) :: fd)) as F'.
    { unfold withEntry. simpl. rewrite F. reflexivity. }
    destruct Hin as [Hin|[Hin|[]]]; injection Hin as <- <- <-.
    + split; [|intros file doc l items Hflow; discriminate Hflow].
      intros id _ Hi Ti.
      rewrite (action_duplicateMenu _ _ admin _ A F' E). split.
      * apply duplicateMenu_fetches with (title := Str.trim t); auto.
      * intros reply items G Te Tm P.
        apply duplicateMenu_creates with (reply := reply); auto.
    + split; [intros id Hflow; discriminate Hflow|].
      intros file doc l items _ Hf Hs Hd Hi P.
      rewrite (action_importMenu _ _ admin _ A F' E).
      apply importMenu_creates with (file := file) (doc := doc) (l := l); auto.
Qed.

(** What the import flow answers to a file it cannot use: a text that is
    not JSON, and a document other than [null] whose [items] is not an
    Array, are reported on the field ["file"]; the document [null] falls
    through to the generic handler.  No Admin API call is made in any of
    the three cases. *)
Lemma importMenu_unusable_file env admin fd title file :
  submittedTitle fd "newImportMenuTitle" = Some title ->
  title <> "" ->
  FormData_get fd "menuFile" = Some (FFile file) ->
  size file <> 0%N ->
  (forall e, JSON_parse (text file) = Throw e ->
     run (importMenu env admin fd)
     = (Normal (Index.failed "importMenu"
                  (JArr [fieldError "file" "Invalid JSON file."])), [])) /\
  (forall doc, JSON_parse (text file) = Normal doc ->
     nullish doc = false ->
     Array_isArray (prop doc "items") = false ->
     run (importMenu env admin fd)
     = (Normal (Index.failed "importMenu"
                  (JArr [fieldError "file" "Invalid JSON: 'items' array not found."])),
        [])) /\
  (forall doc, JSON_parse (text file) = Normal doc ->
     nullish doc = true ->
     run (importMenu env admin fd)
     = (Normal (Index.failed "importMenu"
                  (JArr [messageError
                           (JStr ("Cannot read properties of " ++ showNullish doc
                                  ++ " (reading 'items')"))])),
        [])).
Proof.
  intros Ht Hne Hf Hs. unfold Index.importMenu. unfold submittedTitle in Ht.
  rewrite Ht, Hf. simpl.
  apply String.eqb_neq in Hne. rewrite Hne.
  apply N.eqb_neq in Hs. rewrite Hs. simpl. run_handler.
  repeat split.
  - intros e ->. reflexivity.
  - intros doc -> N A. unfold get. rewrite N. cbn beta iota. rewrite A.
    reflexivity.
  - intros doc -> N. unfold get. rewrite N. reflexivity.
Qed.

End IndexFacts.

(** ** Closed examples *)

(** Scenarios 1 and 2 of the specification, in one call. *)
Example prepare_scenarios :
  prepareMenuItemsForCreate Sample.ToNumber_ext (JArr [Sample.homeRaw; Sample.shop])
  = Normal (JArr [Sample.home; Sample.shopSanitized]).
Proof. reflexivity. Qed.

(** Malformed input is not the normalizer's to detect: a [null] element
    and a child [items] that is a String both make it throw. *)
Example prepare_throws_on_malformed :
  prepareMenuItemsForCreate Sample.ToNumber_ext (JArr [JNull])
  = Throw (TypeError "Cannot read properties of null (reading 'title')") /\
  prepareMenuItemsForCreate Sample.ToNumber_ext
    (JArr [JObj [("title", JStr "x"); ("items", JStr "abc")]])
  = Throw (TypeError "items.map is not a function").
Proof. split; reflexivity. Qed.

Example slug_example :
  Str.trim "  My  New Menu! " = "My  New Menu!" /\
  slug "My  New Menu!" = "my-new-menu".
Proof. split; reflexivity. Qed.

Lemma sample_MenuItems : MenuItems (JArr [Sample.homeRaw; Sample.shop]).
Proof.
  apply MenuItems_array.
  - intros item [<-|[<-|[]]]; reflexivity.
  - intros item [<-|[<-|[]]]; simpl.
    + apply MenuItems_array; intros ? [].
    + apply MenuItems_array.
      * intros ? [<-|[]]; reflexivity.
      * intros ? [<-|[]]; apply MenuItems_absent; reflexivity.
Defined.

Lemma prepare_same_length_and_order_witness :
  MenuItems (JArr [Sample.homeRaw; Sample.shop]) /\
  exists outs,
    prepareMenuItemsForCreate Sample.ToNumber_ext (JArr [Sample.homeRaw; Sample.shop])
    = Normal (JArr outs) /\
    List.length outs = 2 /\
    forall i item, nth_error [Sample.homeRaw; Sample.shop] i = Some item ->
      exists o, nth_error outs i = Some o /\
        mapCallback Sample.ToNumber_ext
          (prepareMenuItemsForCreate Sample.ToNumber_ext) item = Normal o.
Proof.
  split; [exact sample_MenuItems|].
  exact (proj2 (proj2 (proj2 (prepare_same_length_and_order Sample.ToNumber_ext)))
           [Sample.homeRaw; Sample.shop] sample_MenuItems).
Defined.

Lemma prepare_only_allowed_fields_witness :
  prepareMenuItemsForCreate Sample.ToNumber_ext (JArr [Sample.homeRaw; Sample.shop])
  = Normal (JArr [Sample.home; Sample.shopSanitized]) /\
  SanitizedCopy (JArr [Sample.homeRaw; Sample.shop])
                (JArr [Sample.home; Sample.shopSanitized]).
Proof.
  split; [reflexivity|].
  apply (prepare_only_allowed_fields Sample.ToNumber_ext). reflexivity.
Defined.

Lemma prepare_resourceId_witness :
  hasProp Sample.home "resourceId" = false /\
  hasProp Sample.shopSanitized "resourceId" = true /\
  prop Sample.shopSanitized "resourceId" = JStr "gid://123".
Proof.
  split.
  - apply (proj1 (proj2
      (prepare_resourceId Sample.ToNumber_ext
         [Sample.homeRaw; Sample.shop] [Sample.home; Sample.shopSanitized]
         0 Sample.homeRaw Sample.home eq_refl eq_refl eq_refl))).
    reflexivity.
  - apply (proj2 (proj2
      (prepare_resourceId Sample.ToNumber_ext
         [Sample.homeRaw; Sample.shop] [Sample.home; Sample.shopSanitized]
         1 Sample.shop Sample.shopSanitized eq_refl eq_refl eq_refl))).
    reflexivity.
Defined.

Lemma prepare_children_witness :
  hasProp Sample.home "items" = false /\
  hasProp Sample.shopSanitized "items" = true /\
  prepareMenuItemsForCreate Sample.ToNumber_ext
    (JArr [JObj [("title", JStr "Sale"); ("url", JStr "/sale");
                 ("type", JStr "HTTP")]])
  = Normal (prop Sample.shopSanitized "items").
Proof.
  split.
  - apply (proj1
      (prepare_children Sample.ToNumber_ext
         [Sample.homeRaw; Sample.shop] [Sample.home; Sample.shopSanitized]
         0 Sample.homeRaw Sample.home eq_refl eq_refl eq_refl)).
    right; reflexivity.
  - apply (proj2
      (prepare_children Sample.ToNumber_ext
         [Sample.homeRaw; Sample.shop] [Sample.home; Sample.shopSanitized]
         1 Sample.shop Sample.shopSanitized eq_refl eq_refl eq_refl)).
    reflexivity.
Defined.

Lemma prepare_idempotent_witness :
  prepareMenuItemsForCreate Sample.ToNumber_ext (JArr [Sample.homeRaw; Sample.shop])
  = Normal (JArr [Sample.home; Sample.shopSanitized]) /\
  prepareMenuItemsForCreate Sample.ToNumber_ext (JArr [Sample.home; Sample.shopSanitized])
  = Normal (JArr [Sample.home; Sample.shopSanitized]).
Proof.
  split; [reflexivity|].
  apply (proj1 (prepare_idempotent Sample.ToNumber_ext)
           (JArr [Sample.homeRaw; Sample.shop])).
  reflexivity.
Defined.



Lemma missing_field_is_a_form_error_witness :
  run (Index.action Sample.ToNumber_ext Sample.JSON_parse Sample.env
         (Sample.post Sample.duplicateFormNoTitle))
  = (Normal (Response_json
       (JObj [("actionName", JStr "duplicateMenu"); ("success", JBool false);
              ("errors",
               JArr [JObj [("field", JArr [JStr "form"]);
                           ("message",
                            JStr "Original menu and new title are required.")]])])),
     []).
Proof.
  apply (proj1 (missing_field_is_a_form_error Sample.ToNumber_ext Sample.JSON_parse
                  Sample.env (Sample.post Sample.duplicateFormNoTitle)
                  Sample.admin Sample.duplicateFormNoTitle eq_refl eq_refl)).
  - reflexivity.
  - right; reflexivity.
Defined.

(** Against C7 as worded: a submission without a title and one without a
    menu get the same tag, so the tag cannot tell which field was
    missing. *)
Lemma form_tag_does_not_identify_field : ~ fieldTagIdentifiesMissingField.
Proof.
  intros [identify H].
  pose proof (H Sample.ToNumber_ext Sample.JSON_parse Sample.env
                (Sample.post Sample.duplicateFormNoTitle) Sample.admin
                Sample.duplicateFormNoTitle "newMenuTitle" _ _
                eq_refl eq_refl eq_refl eq_refl eq_refl) as H1.
  pose proof (H Sample.ToNumber_ext Sample.JSON_parse Sample.env
                (Sample.post Sample.duplicateFormNoMenu) Sample.admin
                Sample.duplicateFormNoMenu "originalMenuId" _ _
                eq_refl eq_refl eq_refl eq_refl eq_refl) as H2.
  vm_compute in H1, H2. rewrite H1 in H2. discriminate H2.
Qed.

Lemma handle_is_slug_hyphen_suffix_witness :
  In (CREATE_MENU_MUTATION "My  New Menu!" "my-new-menu-k3j9x2"
        (JArr [Sample.home; Sample.shopSanitized]))
     (snd (run (Index.action Sample.ToNumber_ext Sample.JSON_parse Sample.env
                  (Sample.post Sample.duplicateForm)))) /\
  In (CREATE_MENU_MUTATION "Imported Main Menu" "imported-main-menu-k3j9x2"
        (JArr [Sample.home]))
     (snd (run (Index.action Sample.ToNumber_ext Sample.JSON_parse Sample.env
                  (Sample.post (Sample.importForm Sample.menuText))))) /\
  "my-new-menu-k3j9x2"
  = (slug "My  New Menu!" ++ "-"
     ++ substring 2 6 (Math_random_toString36 Sample.env))%string /\
  "imported-main-menu-k3j9x2"
  = (slug "Imported Main Menu" ++ "-"
     ++ substring 2 6 (Math_random_toString36 Sample.env))%string.
Proof.
  assert (In (CREATE_MENU_MUTATION "My  New Menu!" "my-new-menu-k3j9x2"
                (JArr [Sample.home; Sample.shopSanitized]))
             (snd (run (Index.action Sample.ToNumber_ext Sample.JSON_parse
                          Sample.env (Sample.post Sample.duplicateForm)))))
    as Hd by (right; left; reflexivity).
  assert (In (CREATE_MENU_MUTATION "Imported Main Menu" "imported-main-menu-k3j9x2"
                (JArr [Sample.home]))
             (snd (run (Index.action Sample.ToNumber_ext Sample.JSON_parse
                          Sample.env (Sample.post (Sample.importForm Sample.menuText))))))
    as Hi by (left; reflexivity).
  split; [exact Hd|]. split; [exact Hi|]. split.
  - exact (proj2 (handle_is_slug_hyphen_suffix Sample.ToNumber_ext Sample.JSON_parse
                    Sample.env (Sample.post Sample.duplicateForm) _ _ _ Hd)).
  - exact (proj2 (handle_is_slug_hyphen_suffix Sample.ToNumber_ext Sample.JSON_parse
                    Sample.env (Sample.post (Sample.importForm Sample.menuText))
                    _ _ _ Hi)).
Defined.

Lemma title_is_trimmed_before_use_witness :
  run (Index.action Sample.ToNumber_ext Sample.JSON_parse Sample.env
         (withEntry "newMenuTitle" (FString "  My  New Menu! ")
            (Sample.post Sample.duplicateFormNoTitle)))
  = run (Index.action Sample.ToNumber_ext Sample.JSON_parse Sample.env
           (withEntry "newMenuTitle" (FString "My  New Menu!")
              (Sample.post Sample.duplicateFormNoTitle)))
  /\
  run (Index.action Sample.ToNumber_ext Sample.JSON_parse Sample.env
         (withEntry "newMenuTitle" (FString "   ")
            (Sample.post Sample.duplicateFormNoTitle)))
  = (Normal (Index.validationFailed "duplicateMenu"
               "Original menu and new title are required."), [])
  /\
  snd (run (Index.action Sample.ToNumber_ext Sample.JSON_parse Sample.env
              (withEntry "newMenuTitle" (FString "  My  New Menu! ")
                 (Sample.post Sample.duplicateFormNoTitle))))
  = [GET_MENU_DETAILS_QUERY_ACTION (FString "gid://shopify/Menu/1");
     CREATE_MENU_MUTATION "My  New Menu!" "my-new-menu-k3j9x2"
       (JArr [Sample.home; Sample.shopSanitized])]
  /\
  snd (run (Index.action Sample.ToNumber_ext Sample.JSON_parse Sample.env
              (withEntry "newImportMenuTitle" (FString " Imported Main Menu  ")
                 (Sample.post [("_action", FString "importMenu");
                               ("menuFile", Sample.file Sample.menuText)]))))
  = [CREATE_MENU_MUTATION "Imported Main Menu" "imported-main-menu-k3j9x2"
       (JArr [Sample.home])].
Proof.
  split; [|split; [|split]].
  - exact (proj1 (title_is_trimmed_before_use Sample.ToNumber_ext Sample.JSON_parse
                    "newMenuTitle" _ _ Sample.env
                    (Sample.post Sample.duplicateFormNoTitle)
                    "  My  New Menu! " (or_introl eq_refl))).
  - exact (proj2 (proj1 (proj2 (title_is_trimmed_before_use Sample.ToNumber_ext
                           Sample.JSON_parse "newMenuTitle" _ _ Sample.env
                           (Sample.post Sample.duplicateFormNoTitle)
                           "   " (or_introl eq_refl)))
                    Sample.duplicateFormNoTitle eq_refl eq_refl eq_refl)
             Sample.admin eq_refl eq_refl).
  - refine (proj2 (proj1 (proj2 (proj2 (title_is_trimmed_before_use
              Sample.ToNumber_ext Sample.JSON_parse "newMenuTitle" _ _ Sample.env
              (Sample.post Sample.duplicateFormNoTitle)
              "  My  New Menu! " (or_introl eq_refl)))
              Sample.admin Sample.duplicateFormNoTitle eq_refl eq_refl eq_refl _)
              (FString "gid://shopify/Menu/1") eq_refl eq_refl eq_refl)
              _ _ eq_refl eq_refl eq_refl eq_refl).
    discriminate.
  - refine (proj2 (proj2 (proj2 (title_is_trimmed_before_use
              Sample.ToNumber_ext Sample.JSON_parse "newImportMenuTitle" _ _
              Sample.env
              (Sample.post [("_action", FString "importMenu");
                            ("menuFile", Sample.file Sample.menuText)])
              " Imported Main Menu  " (or_intror (or_introl eq_refl))))
              Sample.admin _ eq_refl eq_refl eq_refl _)
              _ _ [Sample.home] _ eq_refl eq_refl _ eq_refl eq_refl eq_refl);
      discriminate.
Defined.

(** C6, where the code departs from it. An uploaded file holding the JSON
    document [null] is answered by the generic handler: one error record
    with the engine's message and no field tag (no Admin API call is
    made). *)
Theorem import_null_document_has_no_file_tag :
  Sample.JSON_parse "null" = Normal JNull /\
  run (Index.action Sample.ToNumber_ext Sample.JSON_parse Sample.env
         (Sample.post (Sample.importForm "null")))
  = (Normal (Response_json
       (JObj [("actionName", JStr "importMenu"); ("success", JBool false);
              ("errors",
               JArr [JObj [("message",
                            JStr "Cannot read properties of null (reading 'items')")]])])),
     []) /\
  errorFieldTags
    (Response_json
       (JObj [("actionName", JStr "importMenu"); ("success", JBool false);
              ("errors",
               JArr [JObj [("message",
                            JStr "Cannot read properties of null (reading 'items')")]])]))
  = [JUndefined].
Proof. repeat split. Qed.

(** ** Further properties of the normalizer *)

Lemma mapM_Forall2_ext {A B} (f : A -> Completion B) l l' :
  Forall2 (fun a b => f a = f b) l l' -> mapM f l = mapM f l'.
Proof.
  induction 1 as [|a b l l' Hab H IH]; simpl; [reflexivity|].
  rewrite Hab, IH. reflexivity.
Qed.

Section MoreNormalizerFacts.

Variable ToNumber_ext : JsVal -> Completion Number.

Local Abbreviation prepare := (prepareMenuItemsForCreate ToNumber_ext).
Local Abbreviation callback := (mapCallback ToNumber_ext).

Lemma mapCallback_sameFields self a b :
  sameFields a b -> callback self a = callback self b.
Proof.
  intros (Na & Nb & P). unfold mapCallback.
  rewrite !get_defined by assumption.
  rewrite !P by (unfold allowedFields; simpl; tauto). reflexivity.
Qed.

(** X1. The result is determined by the five fields: two lists of items
    (none [null] or [undefined]) that agree, position by position, on
    [title], [url], [type], [resourceId] and [items] get the same result,
    whatever else the items carry. *)
Theorem prepare_reads_only_allowed_fields l l' :
  Forall2 sameFields l l' ->
  prepareMenuItemsForCreate ToNumber_ext (JArr l)
  = prepareMenuItemsForCreate ToNumber_ext (JArr l').
Proof.
  intros H. rewrite !prepare_JArr.
  rewrite (mapM_Forall2_ext (callback prepare) l l'); [reflexivity|].
  eapply Forall2_impl; [|exact H].
  intros a b Hab. now apply mapCallback_sameFields.
Qed.

(** X2. Items are copied independently of their neighbours: the result on
    a concatenation is the concatenation of the results. *)
Theorem prepare_app l1 l2 o1 o2 :
  prepareMenuItemsForCreate ToNumber_ext (JArr l1) = Normal (JArr o1) ->
  prepareMenuItemsForCreate ToNumber_ext (JArr l2) = Normal (JArr o2) ->
  prepareMenuItemsForCreate ToNumber_ext (JArr (l1 ++ l2))
  = Normal (JArr (o1 ++ o2)).
Proof.
  intros H1 H2. apply prepare_JArr_Forall2.
  apply prepare_JArr_Forall2 in H1, H2. now apply Forall2_app.
Qed.

(** X3. A [null] or [undefined] element is neither skipped nor copied:
    the whole call throws. *)
Theorem prepare_throws_on_nullish_element l item :
  In item l -> nullish item = true ->
  exists e, prepareMenuItemsForCreate ToNumber_ext (JArr l) = Throw e.
Proof.
  intros Hin N.
  destruct (prepare (JArr l)) as [out|e] eqn:E; [|eauto].
  exfalso. apply prepare_Normal in E as (outs & -> & F). simpl in F.
  apply In_nth_error in Hin as [i Hi].
  destruct (Forall2_nth_error_l _ _ _ _ _ F Hi) as (o & _ & Hc).
  apply mapCallback_Normal in Hc as [N' _]. congruence.
Qed.

End MoreNormalizerFacts.

(** ** Further properties of the export endpoint *)

Section MoreExportFacts.

Variable ToNumber_ext : JsVal -> Completion Number.

(** X4. When authentication or the menu query throws an error object,
    the export loader rethrows it if it is a [Response]; otherwise it
    answers 500 with the object's [message] as [details].  Either way no
    further query is made. *)
Theorem loader_answers_thrown_errors env request e :
  (authenticate_admin env = Throw e ->
   run (ExportMenu.loader ToNumber_ext env request)
   = (if isResponse e then Throw e
      else Normal (json (JObj [("error", JStr "Auth error");
                               ("details", message e)]) 500),
      [])) /\
  (forall admin id,
     authenticate_admin env = Normal (Some admin) ->
     searchParams_menuId request = Some id ->
     id <> "" ->
     graphql admin [] (GET_MENU_DETAILS_QUERY id) = Throw e ->
     run (ExportMenu.loader ToNumber_ext env request)
     = (if isResponse e then Throw e
        else Normal (json (JObj [("error",
                                  JStr "Unexpected error during export data preparation");
                                 ("details", message e)]) 500),
        [GET_MENU_DETAILS_QUERY id])).
Proof.
  unfold ExportMenu.loader. run_handler. split.
  - intros ->. destruct (isResponse e); reflexivity.
  - intros admin id -> -> Hid G. cbn beta iota.
    apply String.eqb_neq in Hid. simpl. rewrite Hid. simpl. rewrite G.
    destruct (isResponse e); reflexivity.
Qed.

(** X5. The export loader queries the Admin API at most once, and only
    for an authenticated request with a non-empty [menuId]: the query is
    the menu-details query for that id. *)
Theorem loader_queries_at_most_once env request :
  snd (run (ExportMenu.loader ToNumber_ext env request)) = [] \/
  exists admin id,
    authenticate_admin env = Normal (Some admin) /\
    searchParams_menuId request = Some id /\ id <> "" /\
    snd (run (ExportMenu.loader ToNumber_ext env request))
    = [GET_MENU_DETAILS_QUERY id].
Proof.
  unfold ExportMenu.loader. run_handler.
  destruct (authenticate_admin env) as [[admin|]|e]; simpl; auto.
  - destruct (searchParams_menuId request) as [id|]; simpl; auto.
    destruct (String.eqb_spec id ""); simpl; auto.
    right. exists admin, id. repeat split; auto.
    repeat case_scrutinee; reflexivity.
  - destruct (isResponse e); auto.
Qed.

Lemma loader_ok_inv env request r :
  fst (run (ExportMenu.loader ToNumber_ext env request)) = Normal r ->
  status r = 200%N ->
  exists admin id reply items,
    authenticate_admin env = Normal (Some admin) /\
    searchParams_menuId request = Some id /\
    graphql admin [] (GET_MENU_DETAILS_QUERY id) = Normal reply /\
    truthy (prop reply "errors") = false /\
    prepareMenuItemsForCreate ToNumber_ext
      (prop (prop (prop reply "data") "menu") "items") = Normal items /\
    body r
    = JObj [("originalHandle", prop (prop (prop reply "data") "menu") "handle");
            ("originalTitle", prop (prop (prop reply "data") "menu") "title");
            ("items", items)].
Proof.
  unfold ExportMenu.loader. run_handler.
  repeat case_scrutinee; simpl; intros H S; try discriminate H;
    injection H as <-; try discriminate S.
  match goal with
  | G : get _ "errors" = Normal _ |- _ => apply get_Normal in G as [_ ->]
  end.
  match goal with
  | O : _ || _ = false |- _ => apply orb_false_elim in O as [T _]
  end.
  eauto 10.
Qed.

(** X6. A 200 answer of the export loader is always the export payload of
    the menu the Admin API returned: its handle, its title, and its items
    as the normalizer returned them. *)
Theorem loader_ok_is_export_payload env request r :
  fst (run (ExportMenu.loader ToNumber_ext env request)) = Normal r ->
  status r = 200%N ->
  exists admin id reply items,
    authenticate_admin env = Normal (Some admin) /\
    searchParams_menuId request = Some id /\
    graphql admin [] (GET_MENU_DETAILS_QUERY id) = Normal reply /\
    truthy (prop reply "errors") = false /\
    prepareMenuItemsForCreate ToNumber_ext
      (prop (prop (prop reply "data") "menu") "items") = Normal items /\
    body r
    = JObj [("originalHandle", prop (prop (prop reply "data") "menu") "handle");
            ("originalTitle", prop (prop (prop reply "data") "menu") "title");
            ("items", items)].
Proof. apply loader_ok_inv. Qed.

End MoreExportFacts.

(** ** Further properties of the handle *)

Lemma kept_lower_is_slugChar c :
  Str.isWordChar (Str.lowerChar c) || Ascii.eqb (Str.lowerChar c) "-" = true ->
  isSlugChar (Str.lowerChar c) = true.
Proof.
  destruct c as [[] [] [] [] [] [] [] []]; vm_compute; intros H;
    solve [reflexivity | discriminate H].
Qed.

Lemma slugChar_is_kept c :
  isSlugChar c = true ->
  Str.lowerChar c = c /\ Str.isWhiteSpace c = false /\
  Str.isWordChar c || Ascii.eqb c "-" = true.
Proof.
  destruct c as [[] [] [] [] [] [] [] []]; vm_compute; intros H;
    solve [auto | discriminate H].
Qed.

Lemma slugFrom_chars inRun title : allChars isSlugChar (slugFrom inRun title) = true.
Proof.
  revert inRun; induction title as [|c r IH]; intros inRun; simpl;
    [reflexivity|].
  destruct (Str.isWhiteSpace (Str.lowerChar c)).
  - destruct inRun; simpl; auto.
  - destruct (Str.isWordChar (Str.lowerChar c) || Ascii.eqb (Str.lowerChar c) "-")
      eqn:K; simpl; [|auto].
    rewrite (kept_lower_is_slugChar c K). simpl. auto.
Qed.

Lemma slugFrom_fixed inRun title :
  allChars isSlugChar title = true -> slugFrom inRun title = title.
Proof.
  revert inRun; induction title as [|c r IH]; intros inRun; simpl;
    [reflexivity|].
  intros H. apply andb_prop in H as [Hc Hr].
  destruct (slugChar_is_kept c Hc) as (L & W & K).
  rewrite L, W, K. rewrite IH by assumption. reflexivity.
Qed.

Section HandleFacts.

Variable ToNumber_ext : JsVal -> Completion Number.
Variable JSON_parse : string -> Completion JsVal.

Lemma action_create env request title handle items :
  In (CREATE_MENU_MUTATION title handle items)
     (snd (run (Index.action ToNumber_ext JSON_parse env request))) ->
  handle = (slug title ++ "-" ++ substring 2 6 (Math_random_toString36 env))%string.
Proof.
  unfold Index.action. run_handler.
  destruct (authenticate_admin env) as [[admin|]|e]; simpl; try tauto.
  destruct (formData request) as [fd|e]; simpl; try tauto.
  destruct (entryIs (FormData_get fd "_action") "duplicateMenu").
  - intros H. now apply duplicateMenu_create in H as [_ ->].
  - destruct (entryIs (FormData_get fd "_action") "importMenu");
      simpl; try tauto.
    intros H. now apply importMenu_create in H as [_ ->].
Qed.

(** X7. Every handle the action submits is URL-safe up to its random
    suffix: lower-case letters, digits, underscores and hyphens only,
    then a hyphen and the suffix. *)
Theorem submitted_handle_is_url_safe env request title handle items :
  In (CREATE_MENU_MUTATION title handle items)
     (snd (run (Index.action ToNumber_ext JSON_parse env request))) ->
  exists base,
    handle = (base ++ "-" ++ substring 2 6 (Math_random_toString36 env))%string /\
    allChars isSlugChar base = true.
Proof.
  intros H. apply action_create in H. exists (slug title).
  split; [assumption | apply slugFrom_chars].
Qed.

(** X8. A title that is already a slug is kept as it is: the submitted
    handle is the title, a hyphen and the suffix. *)
Theorem slug_title_is_kept_in_handle env request title handle items :
  In (CREATE_MENU_MUTATION title handle items)
     (snd (run (Index.action ToNumber_ext JSON_parse env request))) ->
  allChars isSlugChar title = true ->
  handle = (title ++ "-" ++ substring 2 6 (Math_random_toString36 env))%string.
Proof.
  intros H S. apply action_create in H. unfold slug in H.
  now rewrite (slugFrom_fixed false title S) in H.
Qed.

End HandleFacts.

(** ** Further properties of the page's action *)

Lemma getOpt_truthy v k : truthy (getOpt v k) = true -> getOpt v k = prop v k.
Proof.
  unfold getOpt. destruct (nullish v); [discriminate | reflexivity].
Qed.

Section MoreIndexFacts.

Variable ToNumber_ext : JsVal -> Completion Number.
Variable JSON_parse : string -> Completion JsVal.

Local Abbreviation action := (Index.action ToNumber_ext JSON_parse).

(** X9. When an Admin API call of the action throws an error object, a
    [Response] included, the action does not rethrow: it answers with a
    failure holding one error record, whose message is the object's
    [message] or, when that is falsy, the flow's default text; no further
    call is made.  Stated for the fetch of the duplicate flow and the
    creation of the import flow. *)
Theorem action_answers_thrown_errors env request admin fd title e :
  authenticate_admin env = Normal (Some admin) ->
  formData request = Normal fd ->
  title <> "" ->
  (forall id,
     entryIs (FormData_get fd "_action") "duplicateMenu" = true ->
     FormData_get fd "originalMenuId" = Some id ->
     truthyEntry (Some id) = true ->
     submittedTitle fd "newMenuTitle" = Some title ->
     graphql admin [] (GET_MENU_DETAILS_QUERY_ACTION id) = Throw e ->
     run (Index.action ToNumber_ext JSON_parse env request)
     = (Normal (Index.failed "duplicateMenu"
                  (JArr [messageError
                           (orElse (message e)
                                   (JStr "An unexpected error occurred."))])),
        [GET_MENU_DETAILS_QUERY_ACTION id])) /\
  (forall file doc l items handle,
     entryIs (FormData_get fd "_action") "importMenu" = true ->
     submittedTitle fd "newImportMenuTitle" = Some title ->
     FormData_get fd "menuFile" = Some (FFile file) ->
     size file <> 0%N ->
     JSON_parse (text file) = Normal doc ->
     prop doc "items" = JArr l ->
     prepareMenuItemsForCreate ToNumber_ext (JArr l) = Normal items ->
     handle = (slug title ++ "-"
               ++ substring 2 6 (Math_random_toString36 env))%string ->
     graphql admin [] (CREATE_MENU_MUTATION title handle items) = Throw e ->
     run (Index.action ToNumber_ext JSON_parse env request)
     = (Normal (Index.failed "importMenu"
                  (JArr [messageError
                           (orElse (message e)
                                   (JStr "An unexpected error occurred during import."))])),
        [CREATE_MENU_MUTATION title handle items])).
Proof.
  intros A F Hne. apply String.eqb_neq in Hne. split.
  - intros id E Hi Ti Ht G.
    rewrite (action_duplicateMenu ToNumber_ext JSON_parse _ _ _ _ A F E).
    unfold Index.duplicateMenu. unfold submittedTitle in Ht.
    rewrite Hi, Ht, Ti. simpl. rewrite Hne. simpl. run_handler.
    rewrite G. reflexivity.
  - intros file doc l items handle E Ht Hf Hs Hd Hi P -> G.
    rewrite (action_importMenu ToNumber_ext JSON_parse _ _ _ _ A F E).
    unfold Index.importMenu. unfold submittedTitle in Ht.
    rewrite Ht, Hf. simpl. rewrite Hne.
    apply N.eqb_neq in Hs. rewrite Hs. simpl. run_handler.
    rewrite Hd. cbn beta iota.
    assert (nullish doc = false) as N.
    { destruct doc; try reflexivity; discriminate Hi. }
    rewrite (get_defined _ _ N). cbn beta iota. rewrite Hi. simpl.
    rewrite P. cbn beta iota. rewrite handle_pipeline_slug.
    simpl in G |- *. rewrite G. reflexivity.
Qed.

(** X10. One request makes at most one fetch and one creation, in that
    order and without retry: the calls are none, or the fetch of the
    submitted [originalMenuId] alone, or that fetch followed by one
    creation (duplicate flow), or one creation alone (import flow). *)
Theorem action_calls_shape env request :
  snd (run (Index.action ToNumber_ext JSON_parse env request)) = [] \/
  (exists fd id,
     formData request = Normal fd /\
     FormData_get fd "originalMenuId" = Some id /\
     (snd (run (Index.action ToNumber_ext JSON_parse env request))
      = [GET_MENU_DETAILS_QUERY_ACTION id] \/
      exists title handle items,
        snd (run (Index.action ToNumber_ext JSON_parse env request))
        = [GET_MENU_DETAILS_QUERY_ACTION id;
           CREATE_MENU_MUTATION title handle items])) \/
  (exists title handle items,
     snd (run (Index.action ToNumber_ext JSON_parse env request))
     = [CREATE_MENU_MUTATION title handle items]).
Proof.
  unfold Index.action, Index.duplicateMenu, Index.importMenu. run_handler.
  repeat case_scrutinee; simpl; eauto 12.
Qed.

Lemma getOpt2_truthy v a b :
  truthy (getOpt (getOpt v a) b) = true ->
  getOpt (getOpt v a) b = prop (prop v a) b.
Proof.
  intros H. rewrite (getOpt_truthy _ _ H).
  unfold getOpt in *. destruct (nullish v); [discriminate H | reflexivity].
Qed.

(** X11. The action reports success only for a creation the Admin API
    confirmed: the last call was a menu creation, its reply carried a
    menu, and that menu is the [createdMenu] of the response. *)
Theorem success_means_created env request r :
  fst (run (Index.action ToNumber_ext JSON_parse env request)) = Normal r ->
  prop (body r) "success" = JBool true ->
  exists admin pre title handle items reply,
    authenticate_admin env = Normal (Some admin) /\
    snd (run (Index.action ToNumber_ext JSON_parse env request))
    = pre ++ [CREATE_MENU_MUTATION title handle items] /\
    graphql admin pre (CREATE_MENU_MUTATION title handle items) = Normal reply /\
    prop (body r) "createdMenu"
    = prop (prop (prop reply "data") "menuCreate") "menu" /\
    truthy (prop (body r) "createdMenu") = true.
Proof.
  unfold Index.action, Index.duplicateMenu, Index.importMenu,
    Index.failed, Index.validationFailed. run_handler.
  repeat case_scrutinee; simpl; intros H S; try discriminate H;
    injection H as <-; try discriminate S; simpl.
  all: repeat match goal with
       | G : get _ _ = Normal _ |- _ => apply get_Normal in G as [_ ->]
       end.
  all: match goal with
       | O : _ || negb (truthy _) = false |- _ =>
           apply orb_false_elim in O as [_ O];
           apply negb_false_iff in O;
           rewrite (getOpt2_truthy _ _ _ O) in O
       end.
  all: match goal with
       | |- context [ [?g; CREATE_MENU_MUTATION ?t ?h ?i] ] =>
           eexists; exists [g], t, h, i; eauto 10
       | |- context [ [CREATE_MENU_MUTATION ?t ?h ?i] ] =>
           eexists; exists [], t, h, i; eauto 10
       end.
Qed.

(** X12. What the action submits for creation is always sanitized: the
    items of every creation call are a value the normalizer returns
    unchanged. *)
Theorem submitted_items_are_sanitized env request title handle items :
  In (CREATE_MENU_MUTATION title handle items)
     (snd (run (Index.action ToNumber_ext JSON_parse env request))) ->
  prepareMenuItemsForCreate ToNumber_ext items = Normal items.
Proof.
  unfold Index.action, Index.duplicateMenu, Index.importMenu. run_handler.
  repeat case_scrutinee; simpl;
    intros H; repeat (destruct H as [H|H]; try discriminate H);
    try contradiction.
  all: injection H as <- <- <-.
  all: match goal with
       | P : prepareMenuItemsForCreate _ ?x = Normal ?j |- _ =>
           apply (prepare_idempotent_within ToNumber_ext (S (depth x)) x j);
           [lia | exact P]
       end.
Qed.

Lemma snoc_inv0 {A} (pre : list A) c : [] = pre ++ [c] -> False.
Proof. intros H. symmetry in H. now apply app_eq_nil in H as [_ H]. Qed.

Lemma snoc_inv1 {A} (x c : A) pre : [x] = pre ++ [c] -> pre = [] /\ x = c.
Proof.
  intros H. change ([] ++ [x] = pre ++ [c]) in H.
  apply app_inj_tail in H as [<- <-]. auto.
Qed.

Lemma snoc_inv2 {A} (x y c : A) pre :
  [x; y] = pre ++ [c] -> pre = [x] /\ y = c.
Proof.
  intros H. change ([x] ++ [y] = pre ++ [c]) in H.
  apply app_inj_tail in H as [<- <-]. auto.
Qed.

Lemma userErrors_length d u us :
  prop (prop d "menuCreate") "userErrors" = JArr (u :: us) ->
  truthy (getOpt (getOpt (getOpt d "menuCreate") "userErrors") "length") = true.
Proof.
  intros H. unfold getOpt.
  destruct (nullish d) eqn:N.
  { destruct d; try discriminate N; discriminate H. }
  destruct (nullish (prop d "menuCreate")) eqn:N'.
  { destruct (prop d "menuCreate"); try discriminate N'; discriminate H. }
  rewrite H. reflexivity.
Qed.

(** X13. User errors of the creation are forwarded as they came: when the
    reply to the creation call carries a non-empty [userErrors] array, the
    response is a failure whose [errors] is that array. *)
Theorem user_errors_are_forwarded
        env request admin pre title handle items reply u us :
  authenticate_admin env = Normal (Some admin) ->
  snd (run (Index.action ToNumber_ext JSON_parse env request))
  = pre ++ [CREATE_MENU_MUTATION title handle items] ->
  graphql admin pre (CREATE_MENU_MUTATION title handle items) = Normal reply ->
  prop (prop (prop reply "data") "menuCreate") "userErrors" = JArr (u :: us) ->
  exists r,
    fst (run (Index.action ToNumber_ext JSON_parse env request)) = Normal r /\
    prop (body r) "success" = JBool false /\
    prop (body r) "errors" = JArr (u :: us).
Proof.
  intros A. unfold Index.action, Index.duplicateMenu, Index.importMenu,
    Index.failed, Index.validationFailed. run_handler. rewrite A.
  cbn beta iota.
  repeat case_scrutinee; simpl; intros T G U;
    try (apply snoc_inv0 in T; contradiction);
    try (apply snoc_inv1 in T as [-> T]; try discriminate T;
         injection T as <- <- <-);
    try (apply snoc_inv2 in T as [-> T]; try discriminate T;
         injection T as <- <- <-).
  all: simpl in *; try congruence.
  all: match goal with
       | E : graphql _ _ _ = Normal ?j |- _ =>
           assert (j = reply) by congruence; subst j
       end.
  all: repeat match goal with
       | E : get _ _ = Normal _ |- _ => apply get_Normal in E as [_ ->]
       | E : get _ _ = Throw _ |- _ =>
           unfold get in E; destruct (nullish reply) eqn:?;
           [destruct reply; try discriminate; discriminate U | discriminate E]
       end.
  all: try (rewrite (userErrors_length _ _ _ U) in *; discriminate).
  all: eexists; split; [reflexivity|]; simpl; auto.
Qed.

(** X14. The duplicate flow creates from what it fetched: a creation
    follows only a fetch whose reply has no [errors] and has a menu, and
    its items are the normalizer's result on that menu's items. *)
Theorem duplicate_submits_fetched_items env request id title handle items :
  snd (run (Index.action ToNumber_ext JSON_parse env request))
  = [GET_MENU_DETAILS_QUERY_ACTION id; CREATE_MENU_MUTATION title handle items] ->
  exists admin reply,
    authenticate_admin env = Normal (Some admin) /\
    graphql admin [] (GET_MENU_DETAILS_QUERY_ACTION id) = Normal reply /\
    truthy (prop reply "errors") = false /\
    truthy (prop (prop reply "data") "menu") = true /\
    prepareMenuItemsForCreate ToNumber_ext
      (prop (prop (prop reply "data") "menu") "items") = Normal items.
Proof.
  unfold Index.action, Index.duplicateMenu, Index.importMenu. run_handler.
  repeat case_scrutinee; simpl; intros H; try discriminate H.
  all: injection H as <- <- <- <-.
  all: repeat match goal with
       | G : get _ _ = Normal _ |- _ => apply get_Normal in G as [_ ->]
       end.
  all: repeat match goal with
       | O : _ || negb (truthy (getOpt (prop _ "data") "menu")) = false |- _ =>
           apply orb_false_elim in O as [? O];
           apply negb_false_iff in O;
           rewrite (getOpt_truthy _ _ O) in O
       end.
  all: eauto 10.
Qed.

(** X15. The import flow creates from the uploaded document: a creation
    without a fetch carries the normalizer's result on the [items] Array
    of the document parsed from the uploaded file. *)
Theorem import_submits_file_items env request title handle items :
  snd (run (Index.action ToNumber_ext JSON_parse env request))
  = [CREATE_MENU_MUTATION title handle items] ->
  exists fd file doc,
    formData request = Normal fd /\
    FormData_get fd "menuFile" = Some (FFile file) /\
    JSON_parse (text file) = Normal doc /\
    Array_isArray (prop doc "items") = true /\
    prepareMenuItemsForCreate ToNumber_ext (prop doc "items") = Normal items.
Proof.
  unfold Index.action, Index.duplicateMenu, Index.importMenu. run_handler.
  repeat case_scrutinee; simpl; intros H; try discriminate H.
  all: injection H as <- <- <-.
  all: repeat match goal with
       | G : get _ _ = Normal _ |- _ => apply get_Normal in G as [_ ->]
       end.
  all: match goal with
       | O : negb (Array_isArray _) = false |- _ => apply negb_false_iff in O
       end.
  all: eauto 10.
Qed.

Lemma importMenu_sanitized_items env admin fd title file doc items :
  submittedTitle fd "newImportMenuTitle" = Some title ->
  title <> "" ->
  FormData_get fd "menuFile" = Some (FFile file) ->
  size file <> 0%N ->
  JSON_parse (text file) = Normal doc ->
  prop doc "items" = JArr items ->
  prepareMenuItemsForCreate ToNumber_ext (JArr items) = Normal (JArr items) ->
  exists handle,
    snd (run (Index.importMenu ToNumber_ext JSON_parse env admin fd))
    = [CREATE_MENU_MUTATION title handle (JArr items)].
Proof.
  intros Ht Hne Hf Hs Hd Hi Hp. unfold Index.importMenu.
  unfold submittedTitle in Ht. rewrite Ht, Hf. simpl.
  apply String.eqb_neq in Hne. rewrite Hne.
  apply N.eqb_neq in Hs. rewrite Hs. simpl. run_handler.
  rewrite Hd. cbn beta iota.
  assert (nullish doc = false) as N.
  { destruct doc; try reflexivity; discriminate Hi. }
  rewrite (get_defined _ _ N). cbn beta iota. rewrite Hi. simpl.
  rewrite Hp. cbn beta iota.
  repeat case_scrutinee; simpl; eauto.
Qed.

(** X16. Export and import round-trip: when the file uploaded for import
    parses to the document the page downloads for an exported menu, the
    import submits exactly the exported items for creation. *)
Theorem exported_document_reimports_unchanged
        exportEnv exportRequest r env request admin fd title file :
  fst (run (ExportMenu.loader ToNumber_ext exportEnv exportRequest)) = Normal r ->
  status r = 200%N ->
  authenticate_admin env = Normal (Some admin) ->
  formData request = Normal fd ->
  entryIs (FormData_get fd "_action") "importMenu" = true ->
  submittedTitle fd "newImportMenuTitle" = Some title ->
  title <> "" ->
  FormData_get fd "menuFile" = Some (FFile file) ->
  size file <> 0%N ->
  JSON_parse (text file) = Normal (Client.exportedDocument (body r)) ->
  exists handle,
    snd (run (Index.action ToNumber_ext JSON_parse env request))
    = [CREATE_MENU_MUTATION title handle (prop (body r) "items")].
Proof.
  intros Hr Hs A F E Ht Hne Hf Hsz Hd.
  apply loader_ok_inv in Hr as (_ & _ & reply & items & _ & _ & _ & _ & P & B);
    [|assumption].
  unfold Client.exportedDocument in Hd. rewrite B in Hd |- *.
  change (prop (JObj _) "items") with items in Hd |- *.
  pose proof P as P'. apply prepare_Normal in P' as (outs & -> & _).
  apply (prepare_idempotent_within ToNumber_ext _ _ _ (Nat.lt_succ_diag_r _)) in P.
  rewrite (action_importMenu ToNumber_ext JSON_parse _ _ _ _ A F E).
  apply importMenu_sanitized_items with (file := file) (doc := JObj [("items", JArr outs)]);
    auto.
Qed.

End MoreIndexFacts.

(** ** The page's loader *)

Lemma menusOf_Normal responseJson menus :
  IndexLoader.menusOf responseJson = Normal menus -> exists l, menus = JArr l.
Proof.
  unfold IndexLoader.menusOf.
  destruct (nullish (getOpt (prop responseJson "data") "menus")).
  - intros H; injection H as <-; eauto.
  - set (edges := prop (getOpt (prop responseJson "data") "menus") "edges").
    destruct (nullish edges); [discriminate|].
    destruct edges as [| | | | |elems|]; simpl; try discriminate.
    destruct (mapM _ elems); simpl; [|discriminate].
    intros H; injection H as <-. unfold orElse; simpl; eauto.
Qed.

Lemma mapM_get_node edges :
  (forall e, In e edges -> nullish e = false) ->
  mapM (fun edge => get edge "node") edges
  = Normal (map (fun edge => prop edge "node") edges).
Proof.
  induction edges as [|e l IH]; simpl; intros H; [reflexivity|].
  rewrite get_defined by auto. simpl. rewrite IH by auto. reflexivity.
Qed.

(** X17. Whatever the page's loader answers has the shape the page reads:
    [menus] is an Array, [actionName] is [null], the status is 200 or 500,
    and a non-empty [menus] never comes together with [errors]. *)
Theorem index_loader_answer_shape authenticate_admin r :
  fst (IndexLoader.loader authenticate_admin) = Normal r ->
  exists menus errors,
    body r = JObj [("menus", JArr menus); ("errors", errors);
                   ("actionName", JNull)] /\
    (menus = [] \/ errors = JNull) /\
    (status r = 200%N \/ status r = 500%N).
Proof.
  unfold IndexLoader.loader, IndexLoader.loaderFailed. cbv [bind].
  repeat case_scrutinee; simpl; intros H; try discriminate H;
    injection H as <-; simpl;
    try match goal with
        | M : IndexLoader.menusOf _ = Normal _ |- _ =>
            apply menusOf_Normal in M as [l ->]
        end;
    eauto 10.
Qed.

(** X18. The page's loader lets nothing through but a thrown [Response]:
    every other failure, of authentication or of the query, becomes a 500
    answer. *)
Theorem index_loader_throws_only_responses authenticate_admin e :
  fst (IndexLoader.loader authenticate_admin) = Throw e -> isResponse e = true.
Proof.
  unfold IndexLoader.loader. cbv [bind].
  repeat case_scrutinee; simpl; intros H; try discriminate H;
    injection H as <-; assumption.
Qed.

(** X19. On a reply without [errors] the page's loader lists the menus in
    the order of the reply: [menus] is the [node] of each edge of
    [data.menus.edges]. *)
Theorem index_loader_lists_nodes adminInstance reply edges :
  IndexLoader.graphqlMenus adminInstance = Normal reply ->
  truthy (prop reply "errors") = false ->
  prop (prop (prop reply "data") "menus") "edges" = JArr edges ->
  (forall e, In e edges -> nullish e = false) ->
  IndexLoader.loader (Normal (Some adminInstance))
  = (Normal (Response_json
       (JObj [("menus", JArr (map (fun edge => prop edge "node") edges));
              ("errors", JNull); ("actionName", JNull)])),
     [IndexLoader.GET_MENUS_IDS_QUERY]).
Proof.
  intros G T E N. unfold IndexLoader.loader. rewrite G. simpl.
  assert (nullish reply = false) as Nr.
  { destruct reply; try reflexivity; discriminate E. }
  rewrite (get_defined _ _ Nr). simpl. rewrite T. simpl.
  unfold IndexLoader.menusOf, getOpt.
  assert (nullish (prop reply "data") = false) as Nd.
  { destruct (prop reply "data"); try reflexivity; discriminate E. }
  rewrite Nd.
  assert (nullish (prop (prop reply "data") "menus") = false) as Nm.
  { destruct (prop (prop reply "data") "menus"); try reflexivity;
      discriminate E. }
  rewrite Nm, E. simpl. rewrite (mapM_get_node _ N). reflexivity.
Qed.

(** ** The export download *)

Lemma replaceWhiteSpaceRuns_nonempty t :
  t <> "" -> Str.replaceWhiteSpaceRuns (Str.toLowerCase t) <> "".
Proof.
  destruct t as [|c r]; [congruence|]. intros _.
  unfold Str.replaceWhiteSpaceRuns. simpl.
  destruct (Str.isWhiteSpace (Str.lowerChar c)); discriminate.
Qed.

Section ClientFacts.

Variable ToString_ext : JsVal -> Completion string.

(** X20. The download always gets a name: for loader data whose handle and
    title are Strings or absent, the file is named [base-export.json] with
    a non-empty base, which is the handle if it is non-empty, else the
    title in lower case with whitespace runs as hyphens if the title is
    non-empty, else [menu]. *)
Theorem download_name_has_a_base menuToExport :
  stringOrAbsent (prop menuToExport "originalHandle") = true ->
  stringOrAbsent (prop menuToExport "originalTitle") = true ->
  exists base,
    Client.downloadName ToString_ext menuToExport
    = Normal (base ++ "-export.json")%string /\
    base <> "" /\
    (truthy (prop menuToExport "originalHandle") = true ->
     prop menuToExport "originalHandle" = JStr base) /\
    (truthy (prop menuToExport "originalHandle") = false ->
     forall t, prop menuToExport "originalTitle" = JStr t -> t <> "" ->
       base = Str.replaceWhiteSpaceRuns (Str.toLowerCase t)) /\
    (truthy (prop menuToExport "originalHandle") = false ->
     truthy (prop menuToExport "originalTitle") = false ->
     base = "menu").
Proof.
  unfold Client.downloadName.
  destruct (prop menuToExport "originalHandle") as [| | | |h| |];
    try discriminate; intros _;
    destruct (prop menuToExport "originalTitle") as [| | | |t| |];
    try discriminate; intros _; simpl.
  all: try (exists "menu"; repeat split; congruence).
  all: try (destruct h as [|c h]; simpl;
            [| exists (String c h); repeat split; congruence]).
  all: try (exists "menu"; repeat split; congruence).
  all: destruct t as [|c t]; [exists "menu"; repeat split; congruence|].
  all: pose proof (replaceWhiteSpaceRuns_nonempty (String c t)) as Hn.
  all: destruct (Str.replaceWhiteSpaceRuns (Str.toLowerCase (String c t)))
         as [|c' r'] eqn:E; [exfalso; apply Hn; congruence|].
  all: unfold orElse; cbn [truthy String.eqb negb Client.ToString bind].
  all: exists (String c' r'); repeat split; try congruence.
  all: intros _ t' Ht' _; injection Ht' as <-; now rewrite E.
Qed.

End ClientFacts.

(** ** Closed examples of the further properties *)

Lemma prepare_reads_only_allowed_fields_witness :
  Forall2 sameFields [Sample.shop] [MoreSamples.shopWithoutId] /\
  prepareMenuItemsForCreate Sample.ToNumber_ext (JArr [Sample.shop])
  = prepareMenuItemsForCreate Sample.ToNumber_ext (JArr [MoreSamples.shopWithoutId]).
Proof.
  assert (Forall2 sameFields [Sample.shop] [MoreSamples.shopWithoutId]) as H.
  { repeat constructor.
    intros k [<-|[<-|[<-|[<-|[<-|[]]]]]]; reflexivity. }
  split; [exact H|].
  exact (prepare_reads_only_allowed_fields Sample.ToNumber_ext _ _ H).
Defined.

Lemma prepare_app_witness :
  prepareMenuItemsForCreate Sample.ToNumber_ext
    (JArr ([Sample.homeRaw] ++ [Sample.shop]))
  = Normal (JArr ([Sample.home] ++ [Sample.shopSanitized])).
Proof.
  exact (prepare_app Sample.ToNumber_ext [Sample.homeRaw] [Sample.shop]
           [Sample.home] [Sample.shopSanitized] eq_refl eq_refl).
Defined.

Lemma prepare_throws_on_nullish_element_witness :
  exists e,
    prepareMenuItemsForCreate Sample.ToNumber_ext (JArr [Sample.home; JNull])
    = Throw e.
Proof.
  apply (prepare_throws_on_nullish_element Sample.ToNumber_ext
           [Sample.home; JNull] JNull).
  - right; left; reflexivity.
  - reflexivity.
Defined.

Lemma loader_answers_thrown_errors_witness :
  run (ExportMenu.loader Sample.ToNumber_ext MoreSamples.envRedirect
         MoreSamples.exportRequest)
  = (Throw MoreSamples.redirect, []) /\
  run (ExportMenu.loader Sample.ToNumber_ext MoreSamples.envAuthDown
         MoreSamples.exportRequest)
  = (Normal (json (JObj [("error", JStr "Auth error");
                         ("details", JStr "fetch failed")]) 500), []) /\
  run (ExportMenu.loader Sample.ToNumber_ext MoreSamples.envDown
         MoreSamples.exportRequest)
  = (Normal (json (JObj [("error",
                          JStr "Unexpected error during export data preparation");
                         ("details", JStr "fetch failed")]) 500),
     [GET_MENU_DETAILS_QUERY "gid://shopify/Menu/1"]).
Proof.
  split; [|split].
  - exact (proj1 (loader_answers_thrown_errors Sample.ToNumber_ext
                    MoreSamples.envRedirect MoreSamples.exportRequest
                    MoreSamples.redirect) eq_refl).
  - exact (proj1 (loader_answers_thrown_errors Sample.ToNumber_ext
                    MoreSamples.envAuthDown MoreSamples.exportRequest
                    MoreSamples.networkError) eq_refl).
  - refine (proj2 (loader_answers_thrown_errors Sample.ToNumber_ext
                     MoreSamples.envDown MoreSamples.exportRequest
                     MoreSamples.networkError)
              MoreSamples.adminDown "gid://shopify/Menu/1"
              eq_refl eq_refl _ eq_refl).
    discriminate.
Defined.

Lemma loader_ok_is_export_payload_witness :
  exists admin id reply items,
    authenticate_admin MoreSamples.envHome = Normal (Some admin) /\
    searchParams_menuId MoreSamples.exportRequest = Some id /\
    graphql admin [] (GET_MENU_DETAILS_QUERY id) = Normal reply /\
    truthy (prop reply "errors") = false /\
    prepareMenuItemsForCreate Sample.ToNumber_ext
      (prop (prop (prop reply "data") "menu") "items") = Normal items /\
    JObj [("originalHandle", JStr "main-menu"); ("originalTitle", JStr "Main menu");
          ("items", JArr [Sample.home])]
    = JObj [("originalHandle", prop (prop (prop reply "data") "menu") "handle");
            ("originalTitle", prop (prop (prop reply "data") "menu") "title");
            ("items", items)].
Proof.
  exact (loader_ok_is_export_payload Sample.ToNumber_ext MoreSamples.envHome
           MoreSamples.exportRequest
           (json (JObj [("originalHandle", JStr "main-menu");
                        ("originalTitle", JStr "Main menu");
                        ("items", JArr [Sample.home])]) 200)
           eq_refl eq_refl).
Defined.

Lemma submitted_handle_is_url_safe_witness :
  exists base,
    "my-new-menu-k3j9x2"
    = (base ++ "-" ++ substring 2 6 (Math_random_toString36 Sample.env))%string /\
    allChars isSlugChar base = true.
Proof.
  apply (submitted_handle_is_url_safe Sample.ToNumber_ext Sample.JSON_parse
           Sample.env (Sample.post Sample.duplicateForm)
           "My  New Menu!" "my-new-menu-k3j9x2"
           (JArr [Sample.home; Sample.shopSanitized])).
  right; left; reflexivity.
Defined.

Lemma slug_title_is_kept_in_handle_witness :
  "main-menu_2-k3j9x2"
  = ("main-menu_2" ++ "-" ++ substring 2 6 (Math_random_toString36 Sample.env))%string.
Proof.
  apply (slug_title_is_kept_in_handle Sample.ToNumber_ext Sample.JSON_parse
           Sample.env (Sample.post MoreSamples.slugTitleForm)
           "main-menu_2" "main-menu_2-k3j9x2"
           (JArr [Sample.home; Sample.shopSanitized])).
  - right; left; reflexivity.
  - reflexivity.
Defined.

Lemma action_answers_thrown_errors_witness :
  run (Index.action Sample.ToNumber_ext Sample.JSON_parse MoreSamples.envDown
         (Sample.post Sample.duplicateForm))
  = (Normal (Index.failed "duplicateMenu"
               (JArr [messageError (JStr "fetch failed")])),
     [GET_MENU_DETAILS_QUERY_ACTION (FString "gid://shopify/Menu/1")]) /\
  run (Index.action Sample.ToNumber_ext Sample.JSON_parse MoreSamples.envDown
         (Sample.post (Sample.importForm Sample.menuText)))
  = (Normal (Index.failed "importMenu"
               (JArr [messageError (JStr "fetch failed")])),
     [CREATE_MENU_MUTATION "Imported Main Menu" "imported-main-menu-k3j9x2"
        (JArr [Sample.home])]).
Proof.
  split.
  - refine (proj1 (action_answers_thrown_errors Sample.ToNumber_ext
                     Sample.JSON_parse MoreSamples.envDown
                     (Sample.post Sample.duplicateForm) MoreSamples.adminDown
                     Sample.duplicateForm "My  New Menu!" MoreSamples.networkError
                     eq_refl eq_refl _)
              (FString "gid://shopify/Menu/1")
              eq_refl eq_refl eq_refl eq_refl eq_refl).
    discriminate.
  - refine (proj2 (action_answers_thrown_errors Sample.ToNumber_ext
                     Sample.JSON_parse MoreSamples.envDown
                     (Sample.post (Sample.importForm Sample.menuText))
                     MoreSamples.adminDown (Sample.importForm Sample.menuText)
                     "Imported Main Menu" MoreSamples.networkError
                     eq_refl eq_refl _)
              _ _ [Sample.home] (JArr [Sample.home]) "imported-main-menu-k3j9x2"
              eq_refl eq_refl eq_refl _ eq_refl eq_refl eq_refl eq_refl eq_refl);
      discriminate.
Defined.

Lemma success_means_created_witness :
  exists admin pre title handle items reply,
    authenticate_admin Sample.env = Normal (Some admin) /\
    snd (run (Index.action Sample.ToNumber_ext Sample.JSON_parse Sample.env
                (Sample.post Sample.duplicateForm)))
    = pre ++ [CREATE_MENU_MUTATION title handle items] /\
    graphql admin pre (CREATE_MENU_MUTATION title handle items) = Normal reply /\
    JObj [("id", JStr "gid://shopify/Menu/2");
          ("handle", JStr "my-new-menu-k3j9x2");
          ("title", JStr "My  New Menu!")]
    = prop (prop (prop reply "data") "menuCreate") "menu" /\
    truthy (JObj [("id", JStr "gid://shopify/Menu/2");
                  ("handle", JStr "my-new-menu-k3j9x2");
                  ("title", JStr "My  New Menu!")]) = true.
Proof.
  exact (success_means_created Sample.ToNumber_ext Sample.JSON_parse Sample.env
           (Sample.post Sample.duplicateForm)
           (Response_json
              (JObj [("actionName", JStr "duplicateMenu");
                     ("success", JBool true);
                     ("createdMenu",
                      JObj [("id", JStr "gid://shopify/Menu/2");
                            ("handle", JStr "my-new-menu-k3j9x2");
                            ("title", JStr "My  New Menu!")]);
                     ("message",
                      JStr ("Menu " ++ Str.quote ++ "My  New Menu!" ++ Str.quote
                            ++ " duplicated successfully! New handle: "
                            ++ "my-new-menu-k3j9x2"))]))
           eq_refl eq_refl).
Defined.

Lemma submitted_items_are_sanitized_witness :
  prepareMenuItemsForCreate Sample.ToNumber_ext
    (JArr [Sample.home; Sample.shopSanitized])
  = Normal (JArr [Sample.home; Sample.shopSanitized]).
Proof.
  apply (submitted_items_are_sanitized Sample.ToNumber_ext Sample.JSON_parse
           Sample.env (Sample.post Sample.duplicateForm)
           "My  New Menu!" "my-new-menu-k3j9x2").
  right; left; reflexivity.
Defined.

Lemma user_errors_are_forwarded_witness :
  exists r,
    fst (run (Index.action Sample.ToNumber_ext Sample.JSON_parse MoreSamples.envHome
                (Sample.post Sample.duplicateForm))) = Normal r /\
    prop (body r) "success" = JBool false /\
    prop (body r) "errors" = JArr [MoreSamples.handleTaken].
Proof.
  exact (user_errors_are_forwarded Sample.ToNumber_ext Sample.JSON_parse
           MoreSamples.envHome (Sample.post Sample.duplicateForm)
           MoreSamples.adminHome
           [GET_MENU_DETAILS_QUERY_ACTION (FString "gid://shopify/Menu/1")]
           "My  New Menu!" "my-new-menu-k3j9x2" (JArr [Sample.home])
           (JObj [("data",
                   JObj [("menuCreate",
                          JObj [("menu", JNull);
                                ("userErrors", JArr [MoreSamples.handleTaken])])])])
           MoreSamples.handleTaken []
           eq_refl eq_refl eq_refl eq_refl).
Defined.

Lemma duplicate_submits_fetched_items_witness :
  exists admin reply,
    authenticate_admin Sample.env = Normal (Some admin) /\
    graphql admin [] (GET_MENU_DETAILS_QUERY_ACTION (FString "gid://shopify/Menu/1"))
    = Normal reply /\
    truthy (prop reply "errors") = false /\
    truthy (prop (prop reply "data") "menu") = true /\
    prepareMenuItemsForCreate Sample.ToNumber_ext
      (prop (prop (prop reply "data") "menu") "items")
    = Normal (JArr [Sample.home; Sample.shopSanitized]).
Proof.
  exact (duplicate_submits_fetched_items Sample.ToNumber_ext Sample.JSON_parse
           Sample.env (Sample.post Sample.duplicateForm)
           (FString "gid://shopify/Menu/1") "My  New Menu!" "my-new-menu-k3j9x2"
           (JArr [Sample.home; Sample.shopSanitized]) eq_refl).
Defined.

Lemma import_submits_file_items_witness :
  exists fd file doc,
    formData (Sample.post (Sample.importForm Sample.menuText)) = Normal fd /\
    FormData_get fd "menuFile" = Some (FFile file) /\
    Sample.JSON_parse (text file) = Normal doc /\
    Array_isArray (prop doc "items") = true /\
    prepareMenuItemsForCreate Sample.ToNumber_ext (prop doc "items")
    = Normal (JArr [Sample.home]).
Proof.
  exact (import_submits_file_items Sample.ToNumber_ext Sample.JSON_parse
           Sample.env (Sample.post (Sample.importForm Sample.menuText))
           "Imported Main Menu" "imported-main-menu-k3j9x2"
           (JArr [Sample.home]) eq_refl).
Defined.

Lemma exported_document_reimports_unchanged_witness :
  exists handle,
    snd (run (Index.action Sample.ToNumber_ext Sample.JSON_parse Sample.env
                (Sample.post (Sample.importForm Sample.menuText))))
    = [CREATE_MENU_MUTATION "Imported Main Menu" handle (JArr [Sample.home])].
Proof.
  refine (exported_document_reimports_unchanged Sample.ToNumber_ext
            Sample.JSON_parse MoreSamples.envHome MoreSamples.exportRequest
            (json (JObj [("originalHandle", JStr "main-menu");
                         ("originalTitle", JStr "Main menu");
                         ("items", JArr [Sample.home])]) 200)
            Sample.env (Sample.post (Sample.importForm Sample.menuText))
            Sample.admin (Sample.importForm Sample.menuText)
            "Imported Main Menu"
            {| size := N.of_nat (String.length Sample.menuText);
               text := Sample.menuText |}
            eq_refl eq_refl eq_refl eq_refl eq_refl eq_refl _ eq_refl _ eq_refl);
    discriminate.
Defined.

Lemma index_loader_answer_shape_witness :
  exists menus errors,
    JObj [("menus", JArr [MoreSamples.mainMenu; MoreSamples.footer]);
          ("errors", JNull); ("actionName", JNull)]
    = JObj [("menus", JArr menus); ("errors", errors); ("actionName", JNull)] /\
    (menus = [] \/ errors = JNull) /\
    (200%N = 200%N \/ 200%N = 500%N).
Proof.
  exact (index_loader_answer_shape (Normal (Some MoreSamples.menusClient))
           (Response_json
              (JObj [("menus", JArr [MoreSamples.mainMenu; MoreSamples.footer]);
                     ("errors", JNull); ("actionName", JNull)]))
           eq_refl).
Defined.

Lemma index_loader_throws_only_responses_witness :
  fst (IndexLoader.loader (Throw MoreSamples.redirect)) = Throw MoreSamples.redirect /\
  isResponse MoreSamples.redirect = true.
Proof.
  split; [reflexivity|].
  exact (index_loader_throws_only_responses (Throw MoreSamples.redirect)
           MoreSamples.redirect eq_refl).
Defined.

Lemma index_loader_lists_nodes_witness :
  IndexLoader.loader (Normal (Some MoreSamples.menusClient))
  = (Normal (Response_json
       (JObj [("menus", JArr [MoreSamples.mainMenu; MoreSamples.footer]);
              ("errors", JNull); ("actionName", JNull)])),
     [IndexLoader.GET_MENUS_IDS_QUERY]).
Proof.
  apply (index_loader_lists_nodes MoreSamples.menusClient MoreSamples.menusReply
           [JObj [("node", MoreSamples.mainMenu)];
            JObj [("node", MoreSamples.footer)]]);
    try reflexivity.
  intros e [<-|[<-|[]]]; reflexivity.
Defined.

Lemma download_name_has_a_base_witness :
  exists base,
    Client.downloadName MoreSamples.ToString_ext MoreSamples.untitledExport
    = Normal (base ++ "-export.json")%string /\
    base <> "" /\
    (truthy (prop MoreSamples.untitledExport "originalHandle") = true ->
     prop MoreSamples.untitledExport "originalHandle" = JStr base) /\
    (truthy (prop MoreSamples.untitledExport "originalHandle") = false ->
     forall t, prop MoreSamples.untitledExport "originalTitle" = JStr t -> t <> "" ->
       base = Str.replaceWhiteSpaceRuns (Str.toLowerCase t)) /\
    (truthy (prop MoreSamples.untitledExport "originalHandle") = false ->
     truthy (prop MoreSamples.untitledExport "originalTitle") = false ->
     base = "menu").
Proof.
  exact (download_name_has_a_base MoreSamples.ToString_ext
           MoreSamples.untitledExport eq_refl eq_refl).
Defined.

(** The fallback name keeps what the handle's slug would strip. *)
Example download_name_example :
  Client.downloadName MoreSamples.ToString_ext MoreSamples.untitledExport
  = Normal "main-menu-(old)-export.json".
Proof. reflexivity. Qed.

(** ** Invariants of the action's answers and of what it creates *)

Lemma truthy_orElse a b : truthy b = true -> truthy (orElse a b) = true.
Proof. unfold orElse. destruct (truthy a) eqn:T; auto. Qed.

Lemma truthy_length v : truthy (getOpt v "length") = true -> truthy v = true.
Proof.
  destruct v as [| | | |[|c s]| |]; simpl; intros H; try discriminate H;
    reflexivity.
Qed.

Lemma truthy_getOpt2 d a b :
  truthy (getOpt (getOpt d a) b) = true -> truthy (prop (prop d a) b) = true.
Proof. intros H. now rewrite <- (getOpt2_truthy _ _ _ H). Qed.

Section AnswerFacts.

Variable ToNumber_ext : JsVal -> Completion Number.
Variable JSON_parse : string -> Completion JsVal.

(** X21. Every answer of the action is either a success carrying the
    created menu or a failure carrying errors: [success] is a boolean,
    and [errors] is never missing or empty-valued when [success] is
    false. *)
Theorem answer_is_success_or_errors env request r :
  fst (run (Index.action ToNumber_ext JSON_parse env request)) = Normal r ->
  (prop (body r) "success" = JBool true /\
   truthy (prop (body r) "createdMenu") = true) \/
  (prop (body r) "success" = JBool false /\
   truthy (prop (body r) "errors") = true).
Proof.
  unfold Index.action, Index.duplicateMenu, Index.importMenu,
    Index.failed, Index.validationFailed. run_handler.
  repeat case_scrutinee; simpl; intros H; try discriminate H;
    injection H as <-; simpl.
  all: try (right; split; [reflexivity|];
            solve [ reflexivity
                  | apply truthy_orElse; reflexivity
                  | match goal with
                    | L : truthy (getOpt _ "length") = true |- _ =>
                        apply truthy_length in L; now apply truthy_getOpt2 in L
                    end ]).
  all: left; split; [reflexivity|].
  all: match goal with
       | O : _ || negb (truthy (getOpt (getOpt _ "menuCreate") "menu")) = false
         |- _ =>
           apply orb_false_elim in O as [_ O];
           apply negb_false_iff in O; now apply truthy_getOpt2 in O
       end.
Qed.

(** X22. A menu is never created under an empty or untrimmed title: the
    title of every creation call is non-empty and has no surrounding
    whitespace. *)
Theorem created_title_is_trimmed_and_nonempty env request title handle items :
  In (CREATE_MENU_MUTATION title handle items)
     (snd (run (Index.action ToNumber_ext JSON_parse env request))) ->
  title <> "" /\ Str.trim title = title.
Proof.
  unfold Index.action, Index.duplicateMenu, Index.importMenu. run_handler.
  repeat case_scrutinee; simpl;
    intros H; repeat (destruct H as [H|H]; try discriminate H);
    try contradiction.
  all: injection H as <- _ _.
  all: split.
  all: try match goal with
       | G : _ || negb (truthyString (Some ?s)) = false |- ?s <> _ =>
           apply orb_false_elim in G as [_ G]; simpl in G;
           apply negb_false_iff, negb_true_iff, String.eqb_neq in G; exact G
       | G : (negb (truthyString (Some ?s)) || _) || _ || _ = false |- ?s <> _ =>
           apply orb_false_elim in G as [G _];
           apply orb_false_elim in G as [G _];
           apply orb_false_elim in G as [G _]; simpl in G;
           apply negb_false_iff, negb_true_iff, String.eqb_neq in G; exact G
       end.
  all: match goal with
       | E : option_map _ ?o = Some ?s |- Str.trim ?s = ?s =>
           destruct o; [|discriminate E]; injection E as <-;
           apply trim_idempotent
       end.
Qed.

End AnswerFacts.

Section ExportSuccess.

Variable ToNumber_ext : JsVal -> Completion Number.

(** X23. The export of a well-formed menu succeeds: for an authenticated
    request with a [menuId], a reply without [errors] whose menu has a
    well-formed item tree is answered 200 with the menu's handle and
    title and a sanitized copy of its items, after exactly one query. *)
Theorem loader_exports_well_formed_menu env request admin id reply :
  authenticate_admin env = Normal (Some admin) ->
  searchParams_menuId request = Some id ->
  id <> "" ->
  graphql admin [] (GET_MENU_DETAILS_QUERY id) = Normal reply ->
  truthy (prop reply "errors") = false ->
  truthy (prop (prop reply "data") "menu") = true ->
  MenuItems (prop (prop (prop reply "data") "menu") "items") ->
  exists items,
    run (ExportMenu.loader ToNumber_ext env request)
    = (Normal (json
         (JObj [("originalHandle", prop (prop (prop reply "data") "menu") "handle");
                ("originalTitle", prop (prop (prop reply "data") "menu") "title");
                ("items", items)]) 200),
       [GET_MENU_DETAILS_QUERY id]) /\
    SanitizedCopy (prop (prop (prop reply "data") "menu") "items") items.
Proof.
  intros A M Hid G T Tm W.
  destruct (prepare_total ToNumber_ext _ W) as [items P].
  exists items. split.
  - unfold ExportMenu.loader. run_handler. rewrite A. cbn beta iota.
    rewrite M. apply String.eqb_neq in Hid. simpl. rewrite Hid. simpl.
    rewrite G. cbn beta iota.
    assert (nullish reply = false) as Nr.
    { destruct reply; try reflexivity; discriminate Tm. }
    rewrite (get_defined _ _ Nr). cbn beta iota. rewrite T.
    assert (nullish (prop reply "data") = false) as Nd.
    { destruct (prop reply "data"); try reflexivity; discriminate Tm. }
    unfold getOpt. rewrite Nd, Tm. simpl. rewrite P. reflexivity.
  - apply (prepare_SanitizedCopy_within ToNumber_ext
             (S (depth (prop (prop (prop reply "data") "menu") "items"))));
      [lia | exact P].
Qed.

End ExportSuccess.

Lemma answer_is_success_or_errors_witness :
  (prop (body (Index.validationFailed "duplicateMenu"
                 "Original menu and new title are required.")) "success"
   = JBool true /\
   truthy (prop (body (Index.validationFailed "duplicateMenu"
                         "Original menu and new title are required."))
                "createdMenu") = true) \/
  (prop (body (Index.validationFailed "duplicateMenu"
                 "Original menu and new title are required.")) "success"
   = JBool false /\
   truthy (prop (body (Index.validationFailed "duplicateMenu"
                         "Original menu and new title are required."))
                "errors") = true).
Proof.
  exact (answer_is_success_or_errors Sample.ToNumber_ext Sample.JSON_parse
           Sample.env (Sample.post Sample.duplicateFormNoTitle)
           (Index.validationFailed "duplicateMenu"
              "Original menu and new title are required.")
           eq_refl).
Defined.

Lemma created_title_is_trimmed_and_nonempty_witness :
  "My  New Menu!" <> "" /\ Str.trim "My  New Menu!" = "My  New Menu!".
Proof.
  apply (created_title_is_trimmed_and_nonempty Sample.ToNumber_ext
           Sample.JSON_parse Sample.env (Sample.post Sample.duplicateForm)
           "My  New Menu!" "my-new-menu-k3j9x2"
           (JArr [Sample.home; Sample.shopSanitized])).
  right; left; reflexivity.
Defined.

Lemma loader_exports_well_formed_menu_witness :
  exists items,
    run (ExportMenu.loader Sample.ToNumber_ext Sample.env MoreSamples.exportRequest)
    = (Normal (json
         (JObj [("originalHandle", JStr "main-menu");
                ("originalTitle", JStr "Main menu");
                ("items", items)]) 200),
       [GET_MENU_DETAILS_QUERY "gid://shopify/Menu/1"]) /\
    SanitizedCopy (JArr [Sample.homeRaw; Sample.shop]) items.
Proof.
  refine (loader_exports_well_formed_menu Sample.ToNumber_ext Sample.env
            MoreSamples.exportRequest Sample.admin "gid://shopify/Menu/1"
            (JObj [("data",
                    JObj [("menu",
                           JObj [("handle", JStr "main-menu");
                                 ("title", JStr "Main menu");
                                 ("items", JArr [Sample.homeRaw; Sample.shop])])])])
            eq_refl eq_refl _ eq_refl eq_refl eq_refl sample_MenuItems).
  discriminate.
Defined.
